(** * httpd: routing, middleware and error rendering

    A shallow embedding of package [httpd] (httpd.go and its middleware
    file) and the properties of its specification.

    Go strings and byte slices are Rocq strings (sequences of 8-bit
    characters); Go's [int] is [Z] (the code never computes with a status,
    it only stores and passes it on); a map is a [gmap]; an interface is a
    record of its methods; code with effects runs in a state monad over the
    [World] with panics as a second kind of outcome. *)

From Stdlib Require Import ZArith NArith Ascii String Lia DecimalString.
From Stdlib Require Import FunctionalExtensionality.
From stdpp Require Import base strings gmap list sorting.

Set Warnings "-register-all".
Open Scope string_scope.
Open Scope Z_scope.

(** ** Errors *)

(** [type StatusError struct { err error; isResponseError bool; status int }],
    over the type of the wrapped error so that [error] can hold one. *)
Record StatusError_of (E : Type) : Type := Build_StatusError
  { err : E; isResponseError : bool; status : Z }.
Arguments Build_StatusError {E}.
Arguments err {E}.
Arguments isResponseError {E}.
Arguments status {E}.

(** The non-nil values of Go's [error] interface that the package meets:
    the plain errors of [errors.New] and [fmt.Errorf] (a message and
    nothing else), the three errors of the encoder,
    [*json.UnsupportedTypeError], [*json.UnsupportedValueError] and
    [*json.MarshalerError], and the package's own [StatusError]. *)
Inductive error : Type :=
| errorString (s : string)
| UnsupportedTypeError (typ : string)
| UnsupportedValueError (str : string)
| MarshalerError (typ : string) (e : error) (sourceFunc : string)
| error_of_StatusError (e : StatusError_of error).

Definition StatusError : Type := StatusError_of error.

(** [errors.New(text)] and [fmt.Errorf(text)] for a format without verbs. *)
Definition errors_New (text : string) : error := errorString text.
Definition fmt_Errorf (format : string) : error := errorString format.

(** The [Error() string] method of the [error] interface.
    [func (e StatusError) Error() string { return e.err.Error() }] is its
    third case. *)
Fixpoint error_Error (e : error) : string :=
  match e with
  | errorString s => s
  | UnsupportedTypeError typ => "json: unsupported type: " +:+ typ
  | UnsupportedValueError str => "json: unsupported value: " +:+ str
  | MarshalerError typ e sourceFunc =>
    "json: error calling " +:+ (if decide (sourceFunc = EmptyString) then "MarshalJSON"
                                else sourceFunc)
    +:+ " for type " +:+ typ +:+ ": " +:+ error_Error e
  | error_of_StatusError e => error_Error (err e)
  end.

Definition StatusError_Error (e : StatusError) : string := error_Error (err e).

(** [func (e StatusError) IsResponseError() bool] *)
Definition StatusError_IsResponseError (e : StatusError) : bool :=
  isResponseError e.

(** [func (e StatusError) Status() int] *)
Definition StatusError_Status (e : StatusError) : Z := status e.

(** [type Error interface { error; IsResponseError() bool; Status() int }].
    [StatusError] is the implementation the package has; a value of the
    interface is one of it. *)
Definition Error : Type := StatusError.

(** The type assertion [err.(Error)]: the value and [ok]. *)
Definition assert_Error (e : error) : option Error :=
  match e with
  | error_of_StatusError e => Some e
  | _ => None
  end.

(** [func NewError(status int, err error, isResponseError ...bool) Error].
    The variadic argument is the list of the flags passed;
    [len(isResponseError) > 0 && isResponseError[0]] reads its head. *)
Definition NewError (status : Z) (err : error) (isResponseError : list bool) : Error :=
  {| err := err;
     isResponseError :=
       match isResponseError with
       | [] => false
       | b :: _ => b
       end;
     status := status |}.

(** ** The JSON encoder

    [encoding/json] is the platform's; this is its [Marshal] (Go 1.22, which
    the package requires) on the values the package and its tests pass,
    [nil], booleans, integers, strings and non-nil [map[string]string], and
    on values that it fails on in each of its three ways: a channel or a
    function (no encoding for the type), a floating-point number that is
    not finite (no encoding for the value), and a value of a type [typ]
    whose method [MarshalJSON] returns an error. *)

Inductive any : Type :=
| any_nil
| any_bool (b : bool)
| any_int (n : Z)
| any_string (s : string)
| any_map_string_string (m : gmap string string)
| any_float64_NaN
| any_float64_Inf (negative : bool)
| any_chan
| any_func
| any_Marshaler (typ : string) (failure : error).

(** [strconv.AppendInt(dst, n, 10)], also the [%v] of an [int]. *)
Definition int_string (n : Z) : string := NilZero.string_of_int (Z.to_int n).

Definition dquote : ascii := ascii_of_nat 34.
Definition backslash : ascii := ascii_of_nat 92.

(** [const hex = "0123456789abcdef"], indexed by a nibble. *)
Definition hex (n : N) : ascii :=
  nth (N.to_nat n) (list_ascii_of_string "0123456789abcdef") "0"%char.

(** [htmlSafeSet[b]]: the bytes from the space to DEL but the double
    quote, [&], [<], [>] and the backslash. *)
Definition htmlSafeSet (b : ascii) : bool :=
  let n := N_of_ascii b in
  (32 <=? n)%N && (n <=? 127)%N
  && negb ((n =? 34)%N || (n =? 38)%N || (n =? 60)%N || (n =? 62)%N || (n =? 92)%N).

(** The [switch b] of [appendString] for a byte below [utf8.RuneSelf] that
    is not in [htmlSafeSet]. *)
Definition escape_byte (b : ascii) : string :=
  let n := N_of_ascii b in
  if (n =? 92)%N || (n =? 34)%N then String backslash (String b EmptyString)
  else if (n =? 8)%N then String backslash "b"
  else if (n =? 12)%N then String backslash "f"
  else if (n =? 10)%N then String backslash "n"
  else if (n =? 13)%N then String backslash "r"
  else if (n =? 9)%N then String backslash "t"
  else String backslash
         ("u00" +:+ String (hex (N.shiftr n 4)) (String (hex (N.land n 15)) EmptyString)).

(** The output for a byte that starts no valid UTF-8 sequence. *)
Definition replacement : string := String backslash "ufffd".

Definition between (lo hi : N) (b : ascii) : bool :=
  (lo <=? N_of_ascii b)%N && (N_of_ascii b <=? hi)%N.

(** The table [first] and [acceptRanges] of [unicode/utf8]: for a leading
    byte of a multi-byte sequence, its size and the range its second byte
    must be in. *)
Definition utf8_first (b : ascii) : option (nat * N * N) :=
  let n := N_of_ascii b in
  if (n <? 194)%N then None
  else if (n <=? 223)%N then Some (2%nat, 128, 191)%N
  else if (n =? 224)%N then Some (3%nat, 160, 191)%N
  else if (n =? 237)%N then Some (3%nat, 128, 159)%N
  else if (n <=? 239)%N then Some (3%nat, 128, 191)%N
  else if (n =? 240)%N then Some (4%nat, 144, 191)%N
  else if (n <=? 243)%N then Some (4%nat, 128, 191)%N
  else if (n =? 244)%N then Some (4%nat, 128, 143)%N
  else None.

(** U+2028 and U+2029 are the bytes E2 80 A8 and E2 80 A9; the encoder
    writes them as escapes. *)
Definition line_separator (b0 b1 b2 : ascii) : bool :=
  (N_of_ascii b0 =? 226)%N && (N_of_ascii b1 =? 128)%N
  && ((N_of_ascii b2 =? 168)%N || (N_of_ascii b2 =? 169)%N).

(** The loop of [appendString(dst, src, escapeHTML = true)]: the bytes it
    appends between the two quotes. *)
Fixpoint appendString_loop (src : string) : string :=
  match src with
  | EmptyString => EmptyString
  | String b rest =>
    if (N_of_ascii b <? 128)%N then
      (if htmlSafeSet b then String b EmptyString else escape_byte b)
      +:+ appendString_loop rest
    else
      match utf8_first b with
      | None => replacement +:+ appendString_loop rest
      | Some (size, lo, hi) =>
        match rest with
        | String b1 rest1 =>
          if between lo hi b1 then
            match size with
            | 2%nat => String b (String b1 (appendString_loop rest1))
            | _ =>
              match rest1 with
              | String b2 rest2 =>
                if between 128 191 b2 then
                  match size with
                  | 3%nat =>
                    if line_separator b b1 b2 then
                      String backslash ("u202" +:+ String (hex (N.land (N_of_ascii b2) 15)) EmptyString)
                      +:+ appendString_loop rest2
                    else String b (String b1 (String b2 (appendString_loop rest2)))
                  | _ =>
                    match rest2 with
                    | String b3 rest3 =>
                      if between 128 191 b3 then
                        String b (String b1 (String b2 (String b3 (appendString_loop rest3))))
                      else replacement +:+ appendString_loop rest
                    | EmptyString => replacement +:+ appendString_loop rest
                    end
                  end
                else replacement +:+ appendString_loop rest
              | EmptyString => replacement +:+ appendString_loop rest
              end
            end
          else replacement +:+ appendString_loop rest
        | EmptyString => replacement +:+ appendString_loop rest
        end
      end
  end.

Definition appendString (src : string) : string :=
  String dquote (appendString_loop src +:+ String dquote EmptyString).

(** The encoder writes the entries of a map in the order of their keys. *)
Definition key_le (p q : string * string) : Prop := Is_true (String.leb p.1 q.1).

#[global] Instance key_le_dec : RelDecision key_le.
Proof. intros p q. unfold key_le. apply _. Defined.

Definition encode_entry (p : string * string) : string :=
  appendString p.1 +:+ ":" +:+ appendString p.2.

Fixpoint join_comma (l : list string) : string :=
  match l with
  | [] => EmptyString
  | [x] => x
  | x :: l => x +:+ "," +:+ join_comma l
  end.

(** An encoder: [json.Marshal], the bytes or the error. The package's
    functions take the encoder they call from the context. *)
Class Encoder : Type := json_Marshal : any -> string + error.

(** Go's encoder. *)
Definition go_Marshal (v : any) : string + error :=
  match v with
  | any_nil => inl "null"
  | any_bool true => inl "true"
  | any_bool false => inl "false"
  | any_int n => inl (int_string n)
  | any_string s => inl (appendString s)
  | any_map_string_string m =>
    inl ("{" +:+ join_comma (encode_entry <$> merge_sort key_le (map_to_list m)) +:+ "}")
  | any_float64_NaN => inr (UnsupportedValueError "NaN")
  | any_float64_Inf false => inr (UnsupportedValueError "+Inf")
  | any_float64_Inf true => inr (UnsupportedValueError "-Inf")
  | any_chan => inr (UnsupportedTypeError "chan int")
  | any_func => inr (UnsupportedTypeError "func()")
  | any_Marshaler typ failure => inr (MarshalerError typ failure "MarshalJSON")
  end.

#[global] Instance go_json : Encoder := go_Marshal.

(** ** The world a request runs in *)

(** A call received by the server's response writer. The package reaches
    the response through the three methods of [http.ResponseWriter] only,
    so what it does to a response is the sequence of these calls; a [Set]
    on the header of the server's writer counts as one. *)
Inductive Call : Type :=
| CallHeaderSet (key value : string)
| CallWriteHeader (statusCode : Z)
| CallWrite (b : string).

(** What [panic] was called with: a value, an error, or a run-time error.
    From Go 1.21 on [recover()] is not nil while a panic is under way, also
    after [panic(nil)]. *)
Inductive PanicValue : Type :=
| panic_any (v : any)
| panic_error (e : error)
| runtime_Error (text : string).

(** The records of [log/slog]: level, message and attributes. The stack of
    [debug.Stack()] is kept as a token, a duration as the difference of two
    readings of the clock. *)
Inductive Level : Type := LevelInfo | LevelError.

Inductive Value : Type :=
| ValueError (e : error)
| ValueInt (n : Z)
| ValueString (s : string)
| ValuePanic (v : PanicValue)
| ValueStack
| ValueDuration (d : Z).

Record LogRecord : Type :=
  { level : Level; msg : string; attrs : list (string * Value) }.

(** A value of a header field: a string, or what
    [http.DetectContentType] finds in the first bytes of a body, which is
    the platform's matter and is kept as it is called. It is never the
    empty string. *)
Inductive HeaderValue : Type :=
| header_value (s : string)
| http_DetectContentType (data : string).

(** A pointer to an [int] variable or to a header map. *)
Definition loc : Type := positive.

Record World : Type :=
  { calls : list Call;        (* received by the server's writer, oldest first *)
    heap : gmap loc Z;        (* the [int] variables that a pointer is taken of *)
    slog : list LogRecord;    (* written by the default logger, oldest first *)
    clock : nat -> Z;         (* what the readings of the clock give, one by one *)
    ticks : nat;              (* the readings of the clock taken so far *)
    maps : gmap loc (gmap string (list HeaderValue)) }.
                              (* the header maps other than the server's *)

Definition set_calls (f : list Call -> list Call) (s : World) : World :=
  {| calls := f (calls s); heap := heap s; slog := slog s; clock := clock s;
     ticks := ticks s; maps := maps s |}.
Definition set_heap (f : gmap loc Z -> gmap loc Z) (s : World) : World :=
  {| calls := calls s; heap := f (heap s); slog := slog s; clock := clock s;
     ticks := ticks s; maps := maps s |}.
Definition set_slog (f : list LogRecord -> list LogRecord) (s : World) : World :=
  {| calls := calls s; heap := heap s; slog := f (slog s); clock := clock s;
     ticks := ticks s; maps := maps s |}.
Definition set_maps
    (f : gmap loc (gmap string (list HeaderValue)) -> gmap loc (gmap string (list HeaderValue)))
    (s : World) : World :=
  {| calls := calls s; heap := heap s; slog := slog s; clock := clock s;
     ticks := ticks s; maps := f (maps s) |}.
Definition tick (s : World) : World :=
  {| calls := calls s; heap := heap s; slog := slog s; clock := clock s;
     ticks := S (ticks s); maps := maps s |}.

(** A call returns or panics. *)
Inductive Outcome (A : Type) : Type :=
| Normal (a : A)
| Panicked (v : PanicValue).
Arguments Normal {A}.
Arguments Panicked {A}.

Definition M (A : Type) : Type := World -> Outcome A * World.

Definition ret {A : Type} (a : A) : M A := fun s => (Normal a, s).

Definition bind {A B : Type} (m : M A) (k : A -> M B) : M B :=
  fun s =>
    match m s with
    | (Normal a, s') => k a s'
    | (Panicked v, s') => (Panicked v, s')
    end.

Definition panic {A : Type} (v : PanicValue) : M A := fun s => (Panicked v, s).

Declare Scope go_scope.
Delimit Scope go_scope with go.
Notation "x <- m ;; k" := (bind m (fun x => k))
  (at level 100, m at next level, right associativity) : go_scope.
Notation "m ;; k" := (bind m (fun _ => k))
  (at level 100, right associativity) : go_scope.
Open Scope go_scope.

(** [defer d(); body] where [d] does not call [recover]: [d] runs when
    [body] has returned or panicked, and a panic goes on after it. *)
Definition defer (d : M unit) (body : M unit) : M unit :=
  fun s =>
    match body s with
    | (Normal _, s') => d s'
    | (Panicked v, s') =>
      match d s' with
      | (Normal _, s'') => (Panicked v, s'')
      | (Panicked v', s'') => (Panicked v', s'')
      end
    end.

(** [defer func() { if err := recover(); err != nil { h(err) } }(); body]:
    [recover()] is nil when [body] returned; it stops the panic of [body]
    otherwise, and the function returns when [h] has. *)
Definition defer_recover (h : PanicValue -> M unit) (body : M unit) : M unit :=
  fun s =>
    match body s with
    | (Normal _, s') => (Normal tt, s')
    | (Panicked v, s') => h v s'
    end.

Definition record_call (c : Call) : M unit :=
  fun s => (Normal tt, set_calls (fun l => (l ++ [c])%list) s).

(** A fresh [int] variable with its address taken, an assignment through
    the pointer and a read through it. *)
Definition new_int (v : Z) : M loc :=
  fun s => let p := fresh (dom (heap s)) in (Normal p, set_heap <[p := v]> s).
Definition store (p : loc) (v : Z) : M unit :=
  fun s => (Normal tt, set_heap <[p := v]> s).
Definition load (p : loc) : M Z :=
  fun s => (Normal (default 0 (heap s !! p)), s).

Definition slog_log (l : Level) (msg : string) (attrs : list (string * Value)) : M unit :=
  fun s => (Normal tt, set_slog (fun r => (r ++ [{| level := l; msg := msg; attrs := attrs |}])%list) s).
Definition slog_Error : string -> list (string * Value) -> M unit := slog_log LevelError.
Definition slog_Info : string -> list (string * Value) -> M unit := slog_log LevelInfo.

(** [time.Now()] takes the next reading of the clock; what the readings
    are is not the program's to say. [time.Since(start)] is
    [time.Now().Sub(start)]. *)
Definition time_Now : M Z := fun s => (Normal (clock s (ticks s)), tick s).
Definition time_Since (start : Z) : M Z := now <- time_Now ;; ret (now - start).

(** ** The response that the server's writer holds

    The tests of the package serve into the recorder of
    [net/http/httptest] and read its fields; the server's writer here is
    that recorder. Its state is a function of the calls it has received:
    the first status written stays, a status outside of 100 to 999 is
    refused, a write before any status implies 200 and a content type
    found in the bytes written, and the header map follows every [Set]. *)

Record ResponseRecorder : Type :=
  { Code : Z; HeaderMap : gmap string (list HeaderValue); Body : string;
    wroteHeader : bool }.

Definition httptest_NewRecorder : ResponseRecorder :=
  {| Code := 200; HeaderMap := ∅; Body := EmptyString; wroteHeader := false |}.

(** [validHeaderFieldByte] of [net/textproto]: the token characters. *)
Definition validHeaderFieldByte (c : ascii) : bool :=
  let n := N_of_ascii c in
  ((48 <=? n) && (n <=? 57) || (65 <=? n) && (n <=? 90) || (97 <=? n) && (n <=? 122)
   || (n =? 33) || (35 <=? n) && (n <=? 39) || (n =? 42) || (n =? 43) || (n =? 45)
   || (n =? 46) || (94 <=? n) && (n <=? 96) || (n =? 124) || (n =? 126))%N.

Fixpoint all_bytes (p : ascii -> bool) (s : string) : bool :=
  match s with
  | EmptyString => true
  | String c s => p c && all_bytes p s
  end.

(** The second loop of [canonicalMIMEHeaderKey]: upper case at the start
    and after a dash, lower case elsewhere. *)
Fixpoint canonical_from (upper : bool) (s : string) : string :=
  match s with
  | EmptyString => EmptyString
  | String c s =>
    let n := N_of_ascii c in
    let c' :=
      if upper && (97 <=? n)%N && (n <=? 122)%N then ascii_of_N (n - 32)
      else if negb upper && (65 <=? n)%N && (n <=? 90)%N then ascii_of_N (n + 32)
      else c in
    String c' (canonical_from (N_of_ascii c' =? 45)%N s)
  end.

(** [textproto.CanonicalMIMEHeaderKey]: a key with a byte that is not a
    token character stays as it is. *)
Definition CanonicalMIMEHeaderKey (s : string) : string :=
  if all_bytes validHeaderFieldByte s then canonical_from true s else s.

(** [func (h Header) Set(key, value string)] and [Get], on the map. *)
Definition HeaderMap_Set (key value : string) (m : gmap string (list HeaderValue))
  : gmap string (list HeaderValue) :=
  <[CanonicalMIMEHeaderKey key := [header_value value]]> m.

Definition HeaderMap_Get (key : string) (m : gmap string (list HeaderValue))
  : option HeaderValue :=
  match m !! CanonicalMIMEHeaderKey key with
  | Some (v :: _) => Some v
  | _ => None
  end.

(** The status codes that [checkWriteHeaderCode] of [net/http] lets
    through, and what it panics with on another. *)
Definition valid_code (code : Z) : bool := (100 <=? code) && (code <=? 999).

Definition invalid_code (code : Z) : PanicValue :=
  panic_any (any_string ("invalid WriteHeader code " +:+ int_string code)).

(** [func (rw *ResponseRecorder) writeHeader(b []byte, str string)], for
    the first bytes of a body: without a content type and a transfer
    encoding in the header, the content type is the one found in [b];
    then status 200 is written. *)
Definition writeHeader (b : string) (rw : ResponseRecorder) : ResponseRecorder :=
  if wroteHeader rw then rw
  else
    let m := HeaderMap rw in
    let hasType := bool_decide (is_Some (m !! "Content-Type")) in
    let hasTE :=
      match HeaderMap_Get "Transfer-Encoding" m with
      | Some (header_value v) => negb (bool_decide (v = EmptyString))
      | Some (http_DetectContentType _) => true
      | None => false
      end in
    {| Code := 200;
       HeaderMap :=
         if negb hasType && negb hasTE
         then <[CanonicalMIMEHeaderKey "Content-Type" := [http_DetectContentType b]]> m
         else m;
       Body := Body rw; wroteHeader := true |}.

(** The recorder after a call. [WriteHeader] with a status written before
    returns at once; with none, a code that is not valid makes it panic,
    and the recorder is as before. *)
Definition receive (rw : ResponseRecorder) (c : Call) : ResponseRecorder :=
  match c with
  | CallHeaderSet key value =>
    {| Code := Code rw; HeaderMap := HeaderMap_Set key value (HeaderMap rw);
       Body := Body rw; wroteHeader := wroteHeader rw |}
  | CallWriteHeader code =>
    if wroteHeader rw then rw
    else if valid_code code
    then {| Code := code; HeaderMap := HeaderMap rw; Body := Body rw;
            wroteHeader := true |}
    else rw
  | CallWrite b =>
    let rw' := writeHeader b rw in
    {| Code := Code rw'; HeaderMap := HeaderMap rw'; Body := Body rw' +:+ b;
       wroteHeader := wroteHeader rw' |}
  end.

Definition recorder (cs : list Call) : ResponseRecorder :=
  foldl receive httptest_NewRecorder cs.

(** Whether [WriteHeader(code)] returns after the calls [cs]. *)
Definition accepts (cs : list Call) (code : Z) : bool :=
  wroteHeader (recorder cs) || valid_code code.

(** ** Response writers *)

(** [http.Header] is a reference to a map: the one of the server's
    writer, or another. *)
Inductive http_Header : Type :=
| host_Header
| Header_at (m : loc).

(** [func (h Header) Set(key, value string)] *)
Definition Header_Set (h : http_Header) (key value : string) : M unit :=
  match h with
  | host_Header => record_call (CallHeaderSet key value)
  | Header_at m =>
    fun s =>
      (Normal tt,
       set_maps (fun ms => <[m := HeaderMap_Set key value (default ∅ (ms !! m))]> ms) s)
  end.

(** [type ResponseWriter interface { Header() Header;
    Write([]byte) (int, error); WriteHeader(statusCode int) }] of
    [net/http]: a value of the interface is its three methods. *)
Record ResponseWriter : Type :=
  { ResponseWriter_Header : M http_Header;
    ResponseWriter_Write : string -> M (Z * option error);
    ResponseWriter_WriteHeader : Z -> M unit }.

(** [checkWriteHeaderCode(code)] of [net/http]. *)
Definition checkWriteHeaderCode (code : Z) : M unit :=
  if valid_code code then ret tt else panic (invalid_code code).

(** Whether the server's writer has written a status. *)
Definition host_wroteHeader : M bool :=
  fun s => (Normal (wroteHeader (recorder (calls s))), s).

(** The writer that the server passes to the handler. Its [WriteHeader]
    returns at once when a status was written before, and checks the code
    otherwise. *)
Definition hostWriter : ResponseWriter :=
  {| ResponseWriter_Header := ret host_Header;
     ResponseWriter_Write :=
       fun b => record_call (CallWrite b) ;; ret (Z.of_nat (String.length b), None);
     ResponseWriter_WriteHeader :=
       fun code =>
         wrote <- host_wroteHeader ;;
         record_call (CallWriteHeader code) ;;
         if wrote then ret tt else checkWriteHeaderCode code |}.

(** The package's [responseWriter], a struct of a pointer [w] to a
    response writer and a pointer [status] to an [int], with its methods:
    [func (r responseWriter) Header() http.Header { return r.w.Header() }],
    [func (r responseWriter) Write(b []byte) (int, error) { return r.w.Write(b) }],
    [func (r responseWriter) WriteHeader(status int) {
       r.status = status; r.w.WriteHeader(status) }],
    where [r.w] and [r.status] are what the two pointers point to. *)
Definition responseWriter (w : ResponseWriter) (status : loc) : ResponseWriter :=
  {| ResponseWriter_Header := ResponseWriter_Header w;
     ResponseWriter_Write := fun b => ResponseWriter_Write w b;
     ResponseWriter_WriteHeader :=
       fun code => store status code ;; ResponseWriter_WriteHeader w code |}.

(** ** Requests and handlers *)

(** The fields of [*http.Request] that the package reads; [TLS] is
    whether the field is not nil. *)
Record Request : Type :=
  { Method : string; TLS : bool; Host : string; RequestURI : string;
    Proto : string; RemoteAddr : string }.

(** [http.Handler], by its method [ServeHTTP]; [http.HandlerFunc(fn)] is
    [fn]. *)
Definition Handler : Type := ResponseWriter -> Request -> M unit.

(** [type ErrorHandler func(http.ResponseWriter, *http.Request, error)] *)
Definition ErrorHandler : Type := ResponseWriter -> Request -> error -> M unit.

(** [type Route func(http.ResponseWriter, *http.Request) error]; [None]
    is the nil error. *)
Definition Route : Type := ResponseWriter -> Request -> M (option error).

(** [type Middleware func(http.Handler) http.Handler] *)
Definition Middleware : Type := Handler -> Handler.

Definition http_StatusInternalServerError : Z := 500.

(** [func Respond(w http.ResponseWriter, status int, payload []byte)] *)
Definition Respond (w : ResponseWriter) (status : Z) (payload : string) : M unit :=
  ResponseWriter_WriteHeader w status ;;
  _ <- ResponseWriter_Write w payload ;;
  ret tt.

(** [func RespondJSON(w http.ResponseWriter, status int, payload any) error] *)
Definition RespondJSON `{Encoder} (w : ResponseWriter) (status : Z) (payload : any)
  : M (option error) :=
  match json_Marshal payload with
  | inr err => ret (Some err)
  | inl body =>
    h <- ResponseWriter_Header w ;;
    Header_Set h "Content-Type" "application/json" ;;
    Respond w status body ;;
    ret None
  end.

(** The status and the message that [defaultErrorHandler] resolves. *)
Definition resolve (err : error) : Z * string :=
  let status := http_StatusInternalServerError in
  let resErr := "internal server error" in
  match assert_Error err with
  | Some e =>
    let status := StatusError_Status e in
    if StatusError_IsResponseError e then (status, StatusError_Error e)
    else (status, resErr)
  | None => (status, resErr)
  end.

(** [func defaultErrorHandler(w http.ResponseWriter, r *http.Request, err error)].
    What [RespondJSON] returns is dropped, as in the source. *)
Definition defaultErrorHandler `{Encoder} : ErrorHandler :=
  fun w r err =>
    let '(status, resErr) := resolve err in
    slog_Error "[httpd]" [("err", ValueError err); ("status", ValueInt status)] ;;
    _ <- RespondJSON w status (any_map_string_string {["error" := resErr]}) ;;
    ret tt.

(** [fmt.Sprintf("[httpd] %s %s://%s%s %s", ...)] of [LoggerMiddleware]. *)
Definition access_line (r : Request) (scheme : string) : string :=
  "[httpd] " +:+ Method r +:+ " " +:+ scheme +:+ "://" +:+ Host r +:+ RequestURI r
  +:+ " " +:+ Proto r.

(** [func LoggerMiddleware(next http.Handler) http.Handler] *)
Definition LoggerMiddleware : Middleware :=
  fun next w r =>
    start <- time_Now ;;
    status <- new_int 0 ;;
    let rw := responseWriter w status in
    defer
      (let scheme := if TLS r then "https" else "http" in
       st <- load status ;;
       took <- time_Since start ;;
       slog_Info (access_line r scheme)
         [("from", ValueString (RemoteAddr r)); ("status", ValueInt st);
          ("took", ValueDuration took)])
      (next rw r).

(** The multiplexer of [net/http]: the handlers registered, by pattern, in
    the order of registration. *)
Definition ServeMux : Type := list (string * Handler).

Definition http_NewServeMux : ServeMux := [].

(** [type Router struct { mux *http.ServeMux; mw []Middleware }], as the
    value a [*Router] points to; a method that changes it returns the new
    value. *)
Record Router : Type := { mux : ServeMux; mw : list Middleware }.

(** [func New() *Router] *)
Definition New : Router := {| mux := http_NewServeMux; mw := [] |}.

(** [func (r *Router) Use(middleware ...Middleware)] *)
Definition Use (r : Router) (middleware : list Middleware) : Router :=
  {| mux := mux r; mw := (mw r ++ middleware)%list |}.

(** [for i := len(mw) - 1; i >= 0; i-- { h = mw[i](h) }], started with [n]
    for [i + 1]. The index is below the length throughout. *)
Fixpoint wrap (mw : list Middleware) (n : nat) (h : Handler) : Handler :=
  match n with
  | O => h
  | S i =>
    match mw !! i with
    | Some m => wrap mw i (m h)
    | None => h
    end
  end.

Section Package.

(** [var DefaultErrorHandler ErrorHandler]: the handler that the
    variable holds while a request is served. *)
Variable DefaultErrorHandler : ErrorHandler.

(** The handler that the multiplexer picks for a request among the ones
    registered; how it matches patterns is its own matter. *)
Variable ServeMux_Handler : ServeMux -> Request -> Handler.

(** [func (mux *ServeMux) registerErr(patstr string, handler Handler) error]
    of [net/http]: the error for a pattern that does not parse or that
    conflicts with one registered before; which patterns those are is the
    multiplexer's matter. *)
Variable ServeMux_registerErr : ServeMux -> string -> option error.

(** [func (r Route) ServeHTTP(w http.ResponseWriter, req *http.Request)] *)
Definition Route_ServeHTTP (r : Route) : Handler :=
  fun w req =>
    err <- r w req ;;
    match err with
    | Some err => DefaultErrorHandler w req err
    | None => ret tt
    end.

(** [func RecoverMiddleware(next http.Handler) http.Handler] *)
Definition RecoverMiddleware : Middleware :=
  fun next w r =>
    defer_recover
      (fun err =>
         h <- ResponseWriter_Header w ;;
         Header_Set h "Connection" "close" ;;
         slog_Error "[httpd] recovering from panic"
           [("err", ValuePanic err); ("trace", ValueStack)] ;;
         DefaultErrorHandler w r (fmt_Errorf "recovering from panic"))
      (next w r).

(** [func (mux *ServeMux) ServeHTTP(w, r)] of [net/http]. *)
Definition ServeMux_ServeHTTP (mux : ServeMux) : Handler :=
  fun w r => ServeMux_Handler mux r w r.

(** [func (mux *ServeMux) Handle(pattern string, handler Handler)] of
    [net/http]: it panics with the error of [registerErr], and the
    multiplexer is then as before. *)
Definition ServeMux_Handle (mux : ServeMux) (pattern : string) (h : Handler)
  : Outcome ServeMux :=
  match ServeMux_registerErr mux pattern with
  | Some e => Panicked (panic_error e)
  | None => Normal (mux ++ [(pattern, h)])%list
  end.

(** [func (r *Router) route(method string, pattern string, route Route,
    middleware ...Middleware)]: the router after the call, or the panic
    of the multiplexer. *)
Definition route (r : Router) (method pattern : string) (route : Route)
    (middleware : list Middleware) : Outcome Router :=
  let h := wrap middleware (length middleware) (Route_ServeHTTP route) in
  match ServeMux_Handle (mux r) (method +:+ " " +:+ pattern) h with
  | Normal m => Normal {| mux := m; mw := mw r |}
  | Panicked v => Panicked v
  end.

Definition Delete (r : Router) := route r "DELETE".
Definition Get (r : Router) := route r "GET".
Definition Handle (r : Router) (method : string) := route r method.
Definition Patch (r : Router) := route r "PATCH".
Definition Post (r : Router) := route r "POST".
Definition Put (r : Router) := route r "PUT".

(** [func (r *Router) ServeHTTP(w http.ResponseWriter, req *http.Request)] *)
Definition Router_ServeHTTP (r : Router) : Handler :=
  fun w req =>
    let h := wrap (mw r) (length (mw r)) (ServeMux_ServeHTTP (mux r)) in
    h w req.

End Package.

(** ** Words of the statements *)

Definition quoted (s : string) : string :=
  String dquote (s +:+ String dquote EmptyString).

(** The body of an error response with the message between the quotes as
    the encoder writes it, and the one with the generic message. *)
Definition error_body (message : string) : string :=
  "{" +:+ (quoted "error" +:+ ":" +:+ appendString message) +:+ "}".

Definition generic_body : string :=
  "{" +:+ quoted "error" +:+ ":" +:+ quoted "internal server error" +:+ "}".

(** The calls by which a JSON response of a status and a body is written. *)
Definition json_response (status : Z) (body : string) : list Call :=
  [CallHeaderSet "Content-Type" "application/json"; CallWriteHeader status;
   CallWrite body].

(** The record that [defaultErrorHandler] logs. *)
Definition error_record (err : error) (status : Z) : LogRecord :=
  {| level := LevelError; msg := "[httpd]";
     attrs := [("err", ValueError err); ("status", ValueInt status)] |}.

(** The server's writer below the package's [responseWriter]s that record
    the status in the [int] variables [ps], the outermost first, and the
    heap after [v] is stored in all of them. *)
Definition observed (ps : list loc) : ResponseWriter :=
  foldr (fun p w => responseWriter w p) hostWriter ps.

Definition store_all (ps : list loc) (v : Z) (h : gmap loc Z) : gmap loc Z :=
  foldl (fun h p => <[p := v]> h) h ps.

(** What a handler does to the response writer it is given, one call at
    a time. *)
Inductive Op : Type :=
| OpHeaderSet (key value : string)
| OpWriteHeader (status : Z)
| OpWrite (b : string).

Definition run_op (w : ResponseWriter) (op : Op) : M unit :=
  match op with
  | OpHeaderSet key value => h <- ResponseWriter_Header w ;; Header_Set h key value
  | OpWriteHeader status => ResponseWriter_WriteHeader w status
  | OpWrite b => _ <- ResponseWriter_Write w b ;; ret tt
  end.

Fixpoint run_ops (w : ResponseWriter) (ops : list Op) : M unit :=
  match ops with
  | [] => ret tt
  | op :: ops => run_op w op ;; run_ops w ops
  end.

Definition call_of (op : Op) : Call :=
  match op with
  | OpHeaderSet key value => CallHeaderSet key value
  | OpWriteHeader status => CallWriteHeader status
  | OpWrite b => CallWrite b
  end.

(** Whether the server's writer panics on the call, after the calls [cs]. *)
Definition refused (cs : list Call) (op : Op) : bool :=
  match op with
  | OpWriteHeader status => negb (accepts cs status)
  | _ => false
  end.

(** Of the calls [ops] that a handler is to make after the calls [cs],
    the ones it gets to make: all of them, or the ones up to the first
    that the server's writer panics on, this one included; and what the
    writer then panics with. *)
Fixpoint made (cs : list Call) (ops : list Op) : list Op :=
  match ops with
  | [] => []
  | op :: ops =>
    op :: (if refused cs op then [] else made (cs ++ [call_of op]) ops)
  end.

Fixpoint refusal (cs : list Call) (ops : list Op) : option PanicValue :=
  match ops with
  | [] => None
  | op :: ops =>
    if refused cs op
    then match op with
         | OpWriteHeader status => Some (invalid_code status)
         | _ => None
         end
    else refusal (cs ++ [call_of op]) ops
  end.

(** How [WriteHeader(c)], a call of a handler and the calls [ops] end on
    the server's writer after the calls [cs]. *)
Definition WriteHeader_outcome (cs : list Call) (c : Z) : Outcome unit :=
  if accepts cs c then Normal tt else Panicked (invalid_code c).

Definition op_outcome (cs : list Call) (op : Op) : Outcome unit :=
  match op with
  | OpWriteHeader c => WriteHeader_outcome cs c
  | _ => Normal tt
  end.

Definition ops_outcome (cs : list Call) (ops : list Op) : Outcome unit :=
  match refusal cs ops with
  | Some v => Panicked v
  | None => Normal tt
  end.

(** The status of the last [WriteHeader] among the calls, [v] without one. *)
Definition last_status (ops : list Op) (v : Z) : Z :=
  foldl (fun v op => match op with OpWriteHeader status => status | _ => v end) v ops.

(** The calls other than [WriteHeader]: a header set or a write. *)
Definition quiet_op (o : string * string + string) : Op :=
  match o with
  | inl (key, value) => OpHeaderSet key value
  | inr b => OpWrite b
  end.






(** ** Inputs of the examples *)

(** The world before a request is served, with a clock that stands
    still, and a request. *)
Definition World0 : World :=
  {| calls := []; heap := ∅; slog := []; clock := fun _ => 0; ticks := 0%nat;
     maps := ∅ |}.

Definition request0 : Request :=
  {| Method := "GET"; TLS := false; Host := "example.com"; RequestURI := "/test";
     Proto := "HTTP/1.1"; RemoteAddr := "192.0.2.1:1234" |}.

(** The record that [RecoverMiddleware] logs and the one that
    [LoggerMiddleware] logs. *)
Definition panic_record (v : PanicValue) : LogRecord :=
  {| level := LevelError; msg := "[httpd] recovering from panic";
     attrs := [("err", ValuePanic v); ("trace", ValueStack)] |}.

Definition access_record (r : Request) (status took : Z) : LogRecord :=
  {| level := LevelInfo;
     msg := access_line r (if TLS r then "https" else "http");
     attrs := [("from", ValueString (RemoteAddr r)); ("status", ValueInt status);
               ("took", ValueDuration took)] |}.

(** A middleware that logs its name before and after the handler it
    wraps, a route that logs that it runs, a multiplexer that hands
    every request to the handler registered first, and one that refuses
    the empty pattern and a pattern that it has, as [net/http]'s does. *)
Definition mark (text : string) : M unit := slog_Info text [].

Definition info (text : string) : LogRecord :=
  {| level := LevelInfo; msg := text; attrs := [] |}.

Definition tag (name : string) : Middleware :=
  fun next w r => mark ("in " +:+ name) ;; next w r ;; mark ("out " +:+ name).

Definition tagged_route : Route := fun _ _ => mark "handler" ;; ret None.

Definition first_Handler : ServeMux -> Request -> Handler :=
  fun mux _ =>
    match mux with
    | (_, h) :: _ => h
    | [] => fun w _ => Respond w 404 "404 page not found"
    end.

Definition same_registerErr : ServeMux -> string -> option error :=
  fun mux pattern =>
    if decide (pattern = EmptyString) then Some (errors_New "http: invalid pattern")
    else if decide (pattern ∈ fst <$> mux)
    then Some (errors_New "http: conflicting pattern")
    else None.

(** [g0(g1(...(h)...))] for the list of [g0], [g1] and so on. *)
Definition nest (mw : list Middleware) (h : Handler) : Handler :=
  foldr (fun m h => m h) h mw.

(** A request served by a router with the middleware of [uses] and one
    route for GET; nothing when the multiplexer refuses the pattern. *)
Definition serve (uses : list (list Middleware)) (pattern : string) (rt : Route)
  : option (Outcome unit * World) :=
  match Get defaultErrorHandler same_registerErr (foldl Use New uses) pattern rt [] with
  | Normal r => Some (Router_ServeHTTP first_Handler r hostWriter request0 World0)
  | Panicked _ => None
  end.

(** ** Handlers and registrations of the further properties *)

(** A handler that makes the calls [ops] on its response writer and then
    returns, or panics with [v]. *)
Definition script (ops : list Op) (v : option PanicValue) : Handler :=
  fun w _ =>
    run_ops w ops ;;
    match v with
    | Some v => panic v
    | None => ret tt
    end.

(** How [script ops v] ends after the calls [cs] on the server's writer. *)
Definition script_outcome (cs : list Call) (ops : list Op) (v : option PanicValue)
  : Outcome unit :=
  match refusal cs ops with
  | Some v' => Panicked v'
  | None =>
    match v with
    | Some v => Panicked v
    | None => Normal tt
    end
  end.

(** A call of one of the registration methods of [*Router]. *)
Inductive Registration : Type :=
| reg_Use (middleware : list Middleware)
| reg_Handle (method pattern : string) (route : Route) (middleware : list Middleware)
| reg_Delete (pattern : string) (route : Route) (middleware : list Middleware)
| reg_Get (pattern : string) (route : Route) (middleware : list Middleware)
| reg_Patch (pattern : string) (route : Route) (middleware : list Middleware)
| reg_Post (pattern : string) (route : Route) (middleware : list Middleware)
| reg_Put (pattern : string) (route : Route) (middleware : list Middleware).

Definition register (DefaultErrorHandler : ErrorHandler)
    (ServeMux_registerErr : ServeMux -> string -> option error) (r : Router)
    (g : Registration) : Outcome Router :=
  match g with
  | reg_Use middleware => Normal (Use r middleware)
  | reg_Handle method pattern rt middleware =>
    Handle DefaultErrorHandler ServeMux_registerErr r method pattern rt middleware
  | reg_Delete pattern rt middleware =>
    Delete DefaultErrorHandler ServeMux_registerErr r pattern rt middleware
  | reg_Get pattern rt middleware =>
    Get DefaultErrorHandler ServeMux_registerErr r pattern rt middleware
  | reg_Patch pattern rt middleware =>
    Patch DefaultErrorHandler ServeMux_registerErr r pattern rt middleware
  | reg_Post pattern rt middleware =>
    Post DefaultErrorHandler ServeMux_registerErr r pattern rt middleware
  | reg_Put pattern rt middleware =>
    Put DefaultErrorHandler ServeMux_registerErr r pattern rt middleware
  end.

(** The calls one after the other; a panic ends them. *)
Fixpoint registers (DefaultErrorHandler : ErrorHandler)
    (ServeMux_registerErr : ServeMux -> string -> option error) (r : Router)
    (gs : list Registration) : Outcome Router :=
  match gs with
  | [] => Normal r
  | g :: gs =>
    match register DefaultErrorHandler ServeMux_registerErr r g with
    | Normal r' => registers DefaultErrorHandler ServeMux_registerErr r' gs
    | Panicked v => Panicked v
    end
  end.

(** The middleware that a registration adds to the router, and the
    pattern and handler that it adds to the multiplexer. *)
Definition globals_of (g : Registration) : list Middleware :=
  match g with
  | reg_Use middleware => middleware
  | _ => []
  end.

Definition entry (DefaultErrorHandler : ErrorHandler) (method pattern : string)
    (rt : Route) (middleware : list Middleware) : string * Handler :=
  (method +:+ " " +:+ pattern, nest middleware (Route_ServeHTTP DefaultErrorHandler rt)).

Definition entries_of (DefaultErrorHandler : ErrorHandler) (g : Registration)
  : list (string * Handler) :=
  match g with
  | reg_Use _ => []
  | reg_Handle method pattern rt middleware =>
    [entry DefaultErrorHandler method pattern rt middleware]
  | reg_Delete pattern rt middleware => [entry DefaultErrorHandler "DELETE" pattern rt middleware]
  | reg_Get pattern rt middleware => [entry DefaultErrorHandler "GET" pattern rt middleware]
  | reg_Patch pattern rt middleware => [entry DefaultErrorHandler "PATCH" pattern rt middleware]
  | reg_Post pattern rt middleware => [entry DefaultErrorHandler "POST" pattern rt middleware]
  | reg_Put pattern rt middleware => [entry DefaultErrorHandler "PUT" pattern rt middleware]
  end.

(** Whether the multiplexer [mux] takes the entries one after the
    other. *)
Fixpoint takes (ServeMux_registerErr : ServeMux -> string -> option error)
    (mux : ServeMux) (es : list (string * Handler)) : bool :=
  match es with
  | [] => true
  | e :: es =>
    match ServeMux_registerErr mux e.1 with
    | Some _ => false
    | None => takes ServeMux_registerErr (mux ++ [e])%list es
    end
  end.

(** * Properties *)

(** C8. [NewError(s, e, b)] is a classified error whose [Status()] is [s]
    as given, for every integer, whose [Error()] is the message of [e] and
    whose [IsResponseError()] is [b]; without the flag [IsResponseError()]
    is false. *)
Theorem NewError_fields (s : Z) (e : error) (b : bool) (more : list bool) :
  assert_Error (error_of_StatusError (NewError s e (b :: more)))
    = Some (NewError s e (b :: more))
  /\ StatusError_Status (NewError s e (b :: more)) = s
  /\ StatusError_Error (NewError s e (b :: more)) = error_Error e
  /\ error_Error (error_of_StatusError (NewError s e (b :: more))) = error_Error e
  /\ StatusError_IsResponseError (NewError s e (b :: more)) = b
  /\ StatusError_Status (NewError s e []) = s
  /\ StatusError_Error (NewError s e []) = error_Error e
  /\ StatusError_IsResponseError (NewError s e []) = false.
Proof. repeat split. Qed.

(** ** The recorder *)

Lemma recorder_snoc (cs : list Call) (c : Call) :
  recorder (cs ++ [c]) = receive (recorder cs) c.
Proof. unfold recorder. rewrite foldl_app. reflexivity. Qed.

Lemma recorder_app (cs cs' : list Call) :
  recorder (cs ++ cs') = foldl receive (recorder cs) cs'.
Proof. unfold recorder. apply foldl_app. Qed.

Lemma wroteHeader_WriteHeader (cs : list Call) (c : Z) :
  wroteHeader (recorder (cs ++ [CallWriteHeader c])) = accepts cs c.
Proof.
  rewrite recorder_snoc. unfold accepts, receive.
  destruct (wroteHeader (recorder cs)) eqn:Hw; [exact Hw|].
  destruct (valid_code c); [reflexivity | exact Hw].
Qed.

Lemma wroteHeader_HeaderSet (cs : list Call) (key value : string) :
  wroteHeader (recorder (cs ++ [CallHeaderSet key value])) = wroteHeader (recorder cs).
Proof. rewrite recorder_snoc. reflexivity. Qed.

Lemma wroteHeader_Write (cs : list Call) (b : string) :
  wroteHeader (recorder (cs ++ [CallWrite b])) = true.
Proof.
  rewrite recorder_snoc. unfold receive, writeHeader.
  destruct (wroteHeader (recorder cs)) eqn:Hw; [exact Hw | reflexivity].
Qed.

(** A response without a status has no body. *)
Lemma recorder_fresh_Body (cs : list Call) :
  wroteHeader (recorder cs) = false -> Body (recorder cs) = EmptyString.
Proof.
  induction cs as [|c cs IH] using rev_ind; [reflexivity|].
  destruct c as [key value|code|b].
  - rewrite wroteHeader_HeaderSet, recorder_snoc. exact IH.
  - rewrite recorder_snoc. unfold receive.
    destruct (wroteHeader (recorder cs)) eqn:Hw; [rewrite Hw; discriminate|].
    destruct (valid_code code); [discriminate | intros _; exact (IH eq_refl)].
  - rewrite wroteHeader_Write. discriminate.
Qed.

Lemma accepts_HeaderSet (cs : list Call) (key value : string) (c : Z) :
  accepts (cs ++ [CallHeaderSet key value]) c = accepts cs c.
Proof. unfold accepts. rewrite wroteHeader_HeaderSet. reflexivity. Qed.

(** What a status and a body written after the calls [cs] leave in the
    recorder, when the status is not refused. *)
Lemma recorder_Respond (cs : list Call) (status : Z) (body : string) :
  accepts cs status = true ->
  HeaderMap (recorder (cs ++ [CallWriteHeader status; CallWrite body]))
    = HeaderMap (recorder cs)
  /\ Body (recorder (cs ++ [CallWriteHeader status; CallWrite body]))
     = Body (recorder cs) +:+ body
  /\ Code (recorder (cs ++ [CallWriteHeader status; CallWrite body]))
     = (if wroteHeader (recorder cs) then Code (recorder cs) else status)
  /\ wroteHeader (recorder (cs ++ [CallWriteHeader status; CallWrite body])) = true.
Proof.
  unfold accepts. intros Ha. rewrite recorder_app. cbn [foldl].
  generalize dependent (recorder cs). intros rc Ha.
  unfold receive, writeHeader. destruct rc as [c h b [|]]; cbn in *.
  - repeat split.
  - rewrite Ha. cbn. repeat split.
Qed.

Lemma recorder_json_response (cs : list Call) (status : Z) (body : string) :
  accepts cs status = true ->
  HeaderMap (recorder (cs ++ json_response status body)) !! "Content-Type"
    = Some [header_value "application/json"]
  /\ Body (recorder (cs ++ json_response status body)) = Body (recorder cs) +:+ body
  /\ Code (recorder (cs ++ json_response status body))
     = (if wroteHeader (recorder cs) then Code (recorder cs) else status)
  /\ wroteHeader (recorder (cs ++ json_response status body)) = true.
Proof.
  intros Ha. unfold json_response.
  change (cs ++ [CallHeaderSet "Content-Type" "application/json"; CallWriteHeader status;
                 CallWrite body])%list
    with (cs ++ [CallHeaderSet "Content-Type" "application/json"]
             ++ [CallWriteHeader status; CallWrite body])%list.
  rewrite app_assoc.
  destruct (recorder_Respond (cs ++ [CallHeaderSet "Content-Type" "application/json"])
              status body) as (Hh & Hb & Hc & Hw).
  { rewrite accepts_HeaderSet. exact Ha. }
  rewrite Hh, Hb, Hc, Hw, wroteHeader_HeaderSet, recorder_snoc.
  cbn [receive HeaderMap Body Code]. unfold HeaderMap_Set.
  split; [apply lookup_insert_eq|]. repeat split.
Qed.

(** ** The response writers *)

Lemma Header_run (ps : list loc) (s : World) :
  ResponseWriter_Header (observed ps) s = (Normal host_Header, s).
Proof. induction ps as [|p ps IH]; [reflexivity | exact IH]. Qed.

Lemma Write_run (ps : list loc) (b : string) (s : World) :
  ResponseWriter_Write (observed ps) b s
  = (Normal (Z.of_nat (String.length b), None),
     set_calls (fun l => (l ++ [CallWrite b])%list) s).
Proof. induction ps as [|p ps IH]; [reflexivity | exact IH]. Qed.

Lemma WriteHeader_run (ps : list loc) (c : Z) (s : World) :
  ResponseWriter_WriteHeader (observed ps) c s
  = (WriteHeader_outcome (calls s) c,
     set_calls (fun l => (l ++ [CallWriteHeader c])%list)
       (set_heap (store_all ps c) s)).
Proof.
  revert s. induction ps as [|p ps IH]; intros s.
  - cbn [observed foldr hostWriter ResponseWriter_WriteHeader].
    unfold WriteHeader_outcome, accepts, bind, host_wroteHeader, record_call,
      checkWriteHeaderCode.
    destruct s as [cs h l k n m]. cbn [calls].
    destruct (wroteHeader (recorder cs)); [reflexivity|].
    destruct (valid_code c); reflexivity.
  - cbn [observed foldr responseWriter ResponseWriter_WriteHeader].
    unfold bind, store at 1. fold (observed ps). rewrite IH. reflexivity.
Qed.

Lemma store_all_lookup (ps : list loc) (v : Z) (h : gmap loc Z) (p : loc) :
  store_all ps v h !! p = if decide (p ∈ ps) then Some v else h !! p.
Proof.
  revert h. induction ps as [|q ps IH]; intros h; cbn.
  - reflexivity.
  - unfold store_all in IH. rewrite IH.
    destruct (decide (p ∈ ps)) as [Hin|Hin].
    + rewrite decide_True by (right; exact Hin). reflexivity.
    + destruct (decide (p = q)) as [->|Hne].
      * rewrite decide_True by left. apply lookup_insert_eq.
      * rewrite decide_False by (intros Hc; apply elem_of_cons in Hc; tauto).
        apply lookup_insert_ne. congruence.
Qed.

Lemma run_op_run (ps : list loc) (op : Op) (s : World) :
  run_op (observed ps) op s
  = (op_outcome (calls s) op,
     set_calls (fun l => (l ++ [call_of op])%list)
       (match op with
        | OpWriteHeader c => set_heap (store_all ps c) s
        | _ => s
        end)).
Proof.
  destruct op as [key value|c|b]; cbn [run_op call_of op_outcome].
  - unfold bind. rewrite Header_run. reflexivity.
  - apply WriteHeader_run.
  - unfold bind. rewrite Write_run. reflexivity.
Qed.

Lemma op_outcome_refused (cs : list Call) (op : Op) :
  op_outcome cs op
  = if refused cs op
    then match op with
         | OpWriteHeader c => Panicked (invalid_code c)
         | _ => Normal tt
         end
    else Normal tt.
Proof.
  destruct op as [key value|c|b]; cbn; try reflexivity.
  unfold WriteHeader_outcome. destruct (accepts cs c); reflexivity.
Qed.

Lemma run_ops_run (ps : list loc) (ops : list Op) (s : World) :
  exists s', run_ops (observed ps) ops s = (ops_outcome (calls s) ops, s')
    /\ calls s' = (calls s ++ (call_of <$> made (calls s) ops))%list
    /\ slog s' = slog s /\ clock s' = clock s /\ ticks s' = ticks s
    /\ maps s' = maps s
    /\ (forall p, p ∈ ps ->
          default 0 (heap s' !! p)
          = last_status (made (calls s) ops) (default 0 (heap s !! p)))
    /\ (forall p, p ∉ ps -> heap s' !! p = heap s !! p).
Proof.
  revert s. induction ops as [|op ops IH]; intros s.
  - exists s. cbn. rewrite app_nil_r. repeat split; reflexivity.
  - cbn [run_ops]. unfold bind. rewrite run_op_run, op_outcome_refused.
    unfold ops_outcome. cbn [made refusal].
    destruct (refused (calls s) op) eqn:Hr.
    + destruct op as [key value|c|b]; try discriminate Hr.
      eexists. split; [reflexivity|]. cbn.
      repeat split; try reflexivity.
      * intros p Hp. rewrite store_all_lookup, decide_True by exact Hp. reflexivity.
      * intros p Hp. rewrite store_all_lookup, decide_False by exact Hp. reflexivity.
    + match goal with |- context [run_ops (observed ps) ops ?t] =>
        destruct (IH t) as (s' & Hrun & Hc & Hl & Hk & Hn & Hm & Hh & Hf)
      end.
      assert (Hcs : calls (set_calls (fun l => (l ++ [call_of op])%list)
                             match op with
                             | OpWriteHeader c => set_heap (store_all ps c) s
                             | _ => s
                             end) = (calls s ++ [call_of op])%list)
        by (destruct op; reflexivity).
      rewrite Hcs in *. exists s'. unfold ops_outcome in Hrun. rewrite Hrun.
      split; [reflexivity|].
      split; [rewrite Hc; cbn; rewrite <- app_assoc; reflexivity|].
      split; [rewrite Hl; destruct op; reflexivity|].
      split; [rewrite Hk; destruct op; reflexivity|].
      split; [rewrite Hn; destruct op; reflexivity|].
      split; [rewrite Hm; destruct op; reflexivity|].
      split.
      * intros p Hp. rewrite (Hh p Hp). unfold last_status. cbn [foldl]. f_equal.
        destruct op as [key value|c|b]; cbn; try reflexivity.
        rewrite store_all_lookup, decide_True by exact Hp. reflexivity.
      * intros p Hp. rewrite (Hf p Hp).
        destruct op as [key value|c|b]; cbn; try reflexivity.
        rewrite store_all_lookup, decide_False by exact Hp. reflexivity.
Qed.

Lemma made_all (cs : list Call) (ops : list Op) :
  refusal cs ops = None -> made cs ops = ops.
Proof.
  revert cs. induction ops as [|op ops IH]; intros cs; [reflexivity|].
  cbn [refusal made]. destruct (refused cs op) eqn:Hr.
  - destruct op; try discriminate Hr. discriminate.
  - intros H. rewrite (IH _ H). reflexivity.
Qed.

Lemma refusal_quiet (quiet : list (string * string + string)) (cs : list Call) :
  refusal cs (quiet_op <$> quiet) = None.
Proof.
  revert cs. induction quiet as [|[[key value]|b] quiet IH]; intros cs;
    [reflexivity| |]; cbn; apply IH.
Qed.

Lemma last_status_quiet (quiet : list (string * string + string)) (v : Z) :
  last_status (quiet_op <$> quiet) v = v.
Proof.
  unfold last_status. induction quiet as [|[[key value]|b] quiet IH]; cbn; auto.
Qed.

(** C7. The status-setter of a response observer stores the code in the
    captured status and passes the call on to the writer below, whatever
    writer that is; writing bytes and reading the header are the calls of
    the writer below. Over the server's writer, the status-setter leaves
    the code in the captured status also when the server's writer refuses
    it, writing bytes and reading the header leave the heap as it is, and
    a captured status that starts at 0 stays 0 when no status-setter is
    called and holds the code of the last status-setter called
    otherwise. *)
Theorem responseWriter_observes (w : ResponseWriter) (p : loc) (c : Z) (b : string)
    (ps : list loc) (quiet : list (string * string + string)) (ops : list Op)
    (s : World) :
  ResponseWriter_WriteHeader (responseWriter w p) c s
    = ResponseWriter_WriteHeader w c (set_heap <[p := c]> s)
  /\ ResponseWriter_Write (responseWriter w p) b s = ResponseWriter_Write w b s
  /\ ResponseWriter_Header (responseWriter w p) s = ResponseWriter_Header w s
  /\ (exists s', ResponseWriter_WriteHeader (responseWriter (observed ps) p) c s
                 = (WriteHeader_outcome (calls s) c, s')
        /\ heap s' !! p = Some c
        /\ calls s' = (calls s ++ [CallWriteHeader c])%list)
  /\ (exists s', ResponseWriter_Write (responseWriter (observed ps) p) b s
                 = (Normal (Z.of_nat (String.length b), None), s')
        /\ heap s' = heap s
        /\ calls s' = (calls s ++ [CallWrite b])%list)
  /\ ResponseWriter_Header (responseWriter (observed ps) p) s = (Normal host_Header, s)
  /\ fst ((status <- new_int 0 ;;
           run_ops (responseWriter (observed ps) status) (quiet_op <$> quiet) ;;
           load status) s) = Normal 0
  /\ (let status := fresh (dom (heap s)) in
      let out := run_ops (responseWriter (observed ps) status) ops
                   (set_heap <[status := 0]> s) in
      fst out = ops_outcome (calls s) ops
      /\ default 0 (heap (snd out) !! status) = last_status (made (calls s) ops) 0).
Proof.
  split; [reflexivity|]. split; [reflexivity|]. split; [reflexivity|].
  change (responseWriter (observed ps) p) with (observed (p :: ps)).
  split.
  { eexists. split; [apply WriteHeader_run|]. split; [|reflexivity].
    cbn [heap set_calls set_heap]. rewrite store_all_lookup.
    rewrite decide_True by left. reflexivity. }
  split.
  { eexists. split; [apply Write_run|]. split; reflexivity. }
  split; [apply Header_run|].
  assert (Hops : forall ops',
            let status := fresh (dom (heap s)) in
            let out := run_ops (observed (status :: ps)) ops' (set_heap <[status := 0]> s) in
            fst out = ops_outcome (calls s) ops'
            /\ default 0 (heap (snd out) !! status) = last_status (made (calls s) ops') 0).
  { intros ops' status out. subst out.
    destruct (run_ops_run (status :: ps) ops' (set_heap <[status := 0]> s))
      as (s' & Hrun & _ & _ & _ & _ & _ & Hh & _).
    rewrite Hrun. cbn [fst snd]. split; [reflexivity|].
    rewrite (Hh status) by left. cbn [heap set_heap calls].
    rewrite lookup_insert_eq. reflexivity. }
  split; [|apply Hops].
  unfold bind at 1. unfold new_int at 1.
  destruct (Hops (quiet_op <$> quiet)) as [Ho Hs]. cbn zeta in Ho, Hs.
  change (responseWriter (observed ps) (fresh (dom (heap s))))
    with (observed (fresh (dom (heap s)) :: ps)).
  unfold bind.
  destruct (run_ops (observed (fresh (dom (heap s)) :: ps)) (quiet_op <$> quiet)
              (set_heap <[fresh (dom (heap s)) := 0]> s)) as [o s'].
  cbn [fst snd] in Ho, Hs. subst o. unfold ops_outcome.
  rewrite refusal_quiet. unfold load. cbn [fst]. rewrite Hs.
  rewrite made_all by apply refusal_quiet. rewrite last_status_quiet. reflexivity.
Qed.

(** ** The encoder *)




Lemma Marshal_singleton (key value : string) :
  json_Marshal (any_map_string_string {[key := value]})
  = inl ("{" +:+ (appendString key +:+ ":" +:+ appendString value) +:+ "}").
Proof.
  unfold json_Marshal, go_json, go_Marshal.
  rewrite map_to_list_singleton. reflexivity.
Qed.

Lemma Marshal_error (message : string) :
  json_Marshal (any_map_string_string {["error" := message]})
  = inl (error_body message).
Proof. rewrite Marshal_singleton. reflexivity. Qed.

Lemma error_body_generic : error_body "internal server error" = generic_body.
Proof. reflexivity. Qed.













(** *** No white space outside of the strings *)










(** ** Responses *)

Lemma Respond_run (ps : list loc) (status : Z) (payload : string) (s : World) :
  Respond (observed ps) status payload s
  = if accepts (calls s) status
    then (Normal tt,
          set_calls (fun l => (l ++ [CallWriteHeader status; CallWrite payload])%list)
            (set_heap (store_all ps status) s))
    else (Panicked (invalid_code status),
          set_calls (fun l => (l ++ [CallWriteHeader status])%list)
            (set_heap (store_all ps status) s)).
Proof.
  unfold Respond. unfold bind at 1. rewrite WriteHeader_run.
  unfold WriteHeader_outcome. destruct (accepts (calls s) status); [|reflexivity].
  unfold bind at 1. rewrite Write_run. unfold ret, set_calls, set_heap; cbn.
  rewrite <- app_assoc. reflexivity.
Qed.

Lemma RespondJSON_run `{Encoder} (ps : list loc) (status : Z) (payload : any)
    (body : string) (s : World) :
  json_Marshal payload = inl body ->
  RespondJSON (observed ps) status payload s
  = if accepts (calls s) status
    then (Normal None,
          set_calls (fun l => (l ++ json_response status body)%list)
            (set_heap (store_all ps status) s))
    else (Panicked (invalid_code status),
          set_calls
            (fun l => (l ++ [CallHeaderSet "Content-Type" "application/json";
                             CallWriteHeader status])%list)
            (set_heap (store_all ps status) s)).
Proof.
  intros Hm. unfold RespondJSON. rewrite Hm. unfold bind at 1.
  rewrite Header_run. unfold bind at 1, Header_Set, record_call.
  unfold bind at 1. rewrite Respond_run.
  cbn [calls set_calls]. rewrite accepts_HeaderSet.
  destruct (accepts (calls s) status); unfold ret, json_response, set_calls, set_heap;
    cbn; rewrite <- !app_assoc; reflexivity.
Qed.

Lemma RespondJSON_error_run `{Encoder} (w : ResponseWriter) (status : Z)
    (payload : any) (e : error) (s : World) :
  json_Marshal payload = inr e ->
  RespondJSON w status payload s = (Normal (Some e), s).
Proof. intros Hm. unfold RespondJSON. rewrite Hm. reflexivity. Qed.

Lemma defaultErrorHandler_run (ps : list loc) (r : Request) (e : error) (s : World) :
  defaultErrorHandler (observed ps) r e s
  = let logged := set_slog (fun l => (l ++ [error_record e (resolve e).1])%list) s in
    if accepts (calls s) (resolve e).1
    then (Normal tt,
          set_calls
            (fun l => (l ++ json_response (resolve e).1 (error_body (resolve e).2))%list)
            (set_heap (store_all ps (resolve e).1) logged))
    else (Panicked (invalid_code (resolve e).1),
          set_calls
            (fun l => (l ++ [CallHeaderSet "Content-Type" "application/json";
                             CallWriteHeader (resolve e).1])%list)
            (set_heap (store_all ps (resolve e).1) logged)).
Proof.
  unfold defaultErrorHandler. destruct (resolve e) as [status resErr].
  cbn [fst snd]. unfold bind at 1, slog_Error, slog_log. unfold bind at 1.
  rewrite (RespondJSON_run _ _ _ _ _ (Marshal_error resErr)).
  cbn [calls set_slog]. destruct (accepts (calls s) status); reflexivity.
Qed.

Lemma accepts_500 (cs : list Call) : accepts cs 500 = true.
Proof. unfold accepts. apply orb_true_r. Qed.




(** C10. For a payload that the encoder fails on, [RespondJSON] returns
    the error of the encoder and the response is as it was: no header set,
    no status and no byte written. *)
Theorem RespondJSON_fails `{Encoder} (w : ResponseWriter) (status : Z) (payload : any)
    (e : error) (s : World) :
  json_Marshal payload = inr e ->
  RespondJSON w status payload s = (Normal (Some e), s).
Proof. apply RespondJSON_error_run. Qed.

Lemma RespondJSON_fails_witness :
  json_Marshal any_chan = inr (UnsupportedTypeError "chan int")
  /\ RespondJSON hostWriter 200 any_chan World0
     = (Normal (Some (UnsupportedTypeError "chan int")), World0).
Proof.
  split; [reflexivity|].
  apply (RespondJSON_fails hostWriter 200 any_chan (UnsupportedTypeError "chan int") World0).
  reflexivity.
Defined.

(** C1, as the code has it. The default error handler logs the error
    and sets the header Content-Type. It then writes status 500 and the
    body of the generic message for an error that is no classified error;
    for a classified error it writes the status of the error and the body
    of the message of the error when the error says the message may be
    shown, of the generic message otherwise. On a response without a
    status, the status written is the status of the response when it is
    one from 100 to 999; for another the response writer panics, and the
    response has no status and no body. On a response with a status, the
    status stays as it is and the body goes after what was written. *)
Theorem defaultErrorHandler_renders (ps : list loc) (r : Request) (e : error)
    (s : World) :
  let status :=
    match assert_Error e with
    | Some c => StatusError_Status c
    | None => 500
    end in
  let body :=
    match assert_Error e with
    | Some c =>
      if StatusError_IsResponseError c then error_body (StatusError_Error c)
      else generic_body
    | None => generic_body
    end in
  generic_body = "{" +:+ (quoted "error" +:+ ":" +:+ quoted "internal server error") +:+ "}"
  /\ (100 <=? 500) && (500 <=? 999) = true
  /\ exists o s', defaultErrorHandler (observed ps) r e s = (o, s')
     /\ slog s' = (slog s ++ [error_record e status])%list
     /\ if wroteHeader (recorder (calls s))
        then o = Normal tt
             /\ calls s' = (calls s ++ [CallHeaderSet "Content-Type" "application/json";
                                        CallWriteHeader status; CallWrite body])%list
             /\ Body (recorder (calls s')) = Body (recorder (calls s)) +:+ body
             /\ Code (recorder (calls s')) = Code (recorder (calls s))
        else if (100 <=? status) && (status <=? 999)
        then o = Normal tt
             /\ calls s' = (calls s ++ [CallHeaderSet "Content-Type" "application/json";
                                        CallWriteHeader status; CallWrite body])%list
             /\ Body (recorder (calls s')) = body
             /\ Code (recorder (calls s')) = status
        else o = Panicked (invalid_code status)
             /\ calls s' = (calls s ++ [CallHeaderSet "Content-Type" "application/json";
                                        CallWriteHeader status])%list
             /\ Body (recorder (calls s')) = EmptyString
             /\ wroteHeader (recorder (calls s')) = false.
Proof.
  intros status body. split; [reflexivity|]. split; [reflexivity|].
  change ((100 <=? status) && (status <=? 999)) with (valid_code status).
  assert (Hr : resolve e = (status, match assert_Error e with
                                    | Some c => if StatusError_IsResponseError c
                                                then StatusError_Error c
                                                else "internal server error"
                                    | None => "internal server error"
                                    end)).
  { subst status. unfold resolve. destruct (assert_Error e) as [c|]; [|reflexivity].
    destruct (StatusError_IsResponseError c); reflexivity. }
  assert (Hb : error_body (resolve e).2 = body).
  { rewrite Hr. subst body. cbn [snd]. destruct (assert_Error e) as [c|]; [|reflexivity].
    destruct (StatusError_IsResponseError c); reflexivity. }
  assert (Hs : (resolve e).1 = status) by (rewrite Hr; reflexivity).
  rewrite defaultErrorHandler_run. cbn zeta. rewrite Hb, Hs. unfold accepts.
  destruct (wroteHeader (recorder (calls s))) eqn:Hw; cbn [orb].
  - eexists _, _. split; [reflexivity|]. cbn [calls slog set_calls set_heap set_slog].
    split; [reflexivity|]. split; [reflexivity|]. split; [reflexivity|].
    destruct (recorder_json_response (calls s) status body) as (_ & HB & HC & _).
    { unfold accepts. rewrite Hw. reflexivity. }
    rewrite Hw in HC. split; assumption.
  - destruct (valid_code status) eqn:Hv.
    + eexists _, _. split; [reflexivity|]. cbn [calls slog set_calls set_heap set_slog].
      split; [reflexivity|]. split; [reflexivity|]. split; [reflexivity|].
      destruct (recorder_json_response (calls s) status body) as (_ & HB & HC & _).
      { unfold accepts. rewrite Hv. apply orb_true_r. }
      rewrite Hw in HC. rewrite (recorder_fresh_Body _ Hw) in HB.
      split; assumption.
    + eexists _, _. split; [reflexivity|]. cbn [calls slog set_calls set_heap set_slog].
      split; [reflexivity|]. split; [reflexivity|]. split; [reflexivity|].
      change (calls s ++ [CallHeaderSet "Content-Type" "application/json";
                          CallWriteHeader status])%list
        with (calls s ++ [CallHeaderSet "Content-Type" "application/json"]
                 ++ [CallWriteHeader status])%list.
      rewrite app_assoc, !recorder_snoc. unfold receive at 1 3.
      cbn [wroteHeader receive]. rewrite Hw, Hv. cbn [Body wroteHeader receive].
      split; [apply (recorder_fresh_Body _ Hw) | reflexivity].
Qed.

(** C1, as the specification has it, fails. A classified error with
    status 0 and a message to show, on a response without a status: the
    handler panics, and the response has no status and no body. A
    classified error with status 404, on a response that has status 201:
    the response keeps status 201. *)
Lemma defaultErrorHandler_refused :
  let gone := error_of_StatusError (NewError 0 (errors_New "gone") [true]) in
  let missing := error_of_StatusError (NewError 404 (errors_New "missing") [true]) in
  let out := defaultErrorHandler hostWriter request0 gone World0 in
  let created := snd (Respond hostWriter 201 "created" World0) in
  let out' := defaultErrorHandler hostWriter request0 missing created in
  (fst out = Panicked (invalid_code 0)
   /\ wroteHeader (recorder (calls (snd out))) = false
   /\ Body (recorder (calls (snd out))) = EmptyString)
  /\ (fst out' = Normal tt
      /\ Code (recorder (calls (snd out'))) = 201
      /\ Body (recorder (calls (snd out')))
         = "created" +:+ "{" +:+ (quoted "error" +:+ ":" +:+ quoted "missing") +:+ "}").
Proof. vm_compute. repeat split. Qed.


(** ** The route adapter and the middleware *)

(** C3. The route adapter calls the active error handler once, with the
    error, when the route returns an error, and not at all when the route
    returns nil (the world is then as the route left it) or panics; so
    whatever counts the calls of the error handler for the writer and the
    request counts one more after an error and the same after nil. *)
Theorem Route_ServeHTTP_renders_once (DefaultErrorHandler : ErrorHandler)
    (count : World -> nat) (rt : Route) (w : ResponseWriter) (req : Request)
    (s : World) :
  (forall e s, count (snd (DefaultErrorHandler w req e s)) = S (count s)) ->
  match rt w req s with
  | (Normal None, s') =>
    Route_ServeHTTP DefaultErrorHandler rt w req s = (Normal tt, s')
    /\ count (snd (Route_ServeHTTP DefaultErrorHandler rt w req s)) = count s'
  | (Normal (Some e), s') =>
    Route_ServeHTTP DefaultErrorHandler rt w req s = DefaultErrorHandler w req e s'
    /\ count (snd (Route_ServeHTTP DefaultErrorHandler rt w req s)) = S (count s')
  | (Panicked v, s') =>
    Route_ServeHTTP DefaultErrorHandler rt w req s = (Panicked v, s')
    /\ count (snd (Route_ServeHTTP DefaultErrorHandler rt w req s)) = count s'
  end.
Proof.
  intros Hcount. unfold Route_ServeHTTP, bind.
  destruct (rt w req s) as [[[e|]|v] s']; cbn [snd]; auto.
Qed.

Lemma Route_ServeHTTP_renders_once_witness :
  (forall e s,
     length (slog (snd (defaultErrorHandler hostWriter request0 e s)))
     = S (length (slog s)))
  /\ length (slog (snd (Route_ServeHTTP defaultErrorHandler
                          (fun _ _ => ret (Some (errors_New "test error")))
                          hostWriter request0 World0))) = 1%nat.
Proof.
  assert (H : forall e s,
             length (slog (snd (defaultErrorHandler hostWriter request0 e s)))
             = S (length (slog s))).
  { intros e s. change hostWriter with (observed []).
    rewrite (defaultErrorHandler_run [] request0 e s). cbn zeta.
    destruct (accepts (calls s) (resolve e).1); cbn [snd slog set_calls set_heap set_slog];
      rewrite length_app; cbn; lia. }
  split; [exact H|].
  exact (proj2 (Route_ServeHTTP_renders_once defaultErrorHandler
                  (fun s => length (slog s))
                  (fun _ _ => ret (Some (errors_New "test error")))
                  hostWriter request0 World0 H)).
Defined.

Lemma recorder_json_HeaderMap (cs : list Call) (status : Z) (body : string) :
  accepts cs status = true ->
  HeaderMap (recorder (cs ++ json_response status body))
  = HeaderMap_Set "Content-Type" "application/json" (HeaderMap (recorder cs)).
Proof.
  intros Ha. unfold json_response.
  change (cs ++ [CallHeaderSet "Content-Type" "application/json"; CallWriteHeader status;
                 CallWrite body])%list
    with (cs ++ [CallHeaderSet "Content-Type" "application/json"]
             ++ [CallWriteHeader status; CallWrite body])%list.
  rewrite app_assoc.
  destruct (recorder_Respond (cs ++ [CallHeaderSet "Content-Type" "application/json"])
              status body) as (Hh & _).
  { rewrite accepts_HeaderSet. exact Ha. }
  rewrite Hh, recorder_snoc. reflexivity.
Qed.

Lemma RecoverMiddleware_default_run (h : Handler) (ps : list loc) (r : Request)
    (s : World) :
  RecoverMiddleware defaultErrorHandler h (observed ps) r s
  = match h (observed ps) r s with
    | (Normal _, s1) => (Normal tt, s1)
    | (Panicked v, s1) =>
      (Normal tt,
       set_calls (fun l => (l ++ json_response 500 generic_body)%list)
         (set_heap (store_all ps 500)
            (set_slog
               (fun l => (l ++ [error_record (fmt_Errorf "recovering from panic") 500])%list)
               (set_slog (fun l => (l ++ [panic_record v])%list)
                  (set_calls
                     (fun l => (l ++ [CallHeaderSet "Connection" "close"])%list) s1)))))
    end.
Proof.
  unfold RecoverMiddleware, defer_recover.
  destruct (h (observed ps) r s) as [[[]|v] s1]; [reflexivity|].
  unfold bind at 1. rewrite Header_run. unfold bind at 1, Header_Set, record_call.
  unfold bind at 1, slog_Error, slog_log. rewrite defaultErrorHandler_run.
  cbn zeta. cbn [resolve assert_Error fmt_Errorf fst snd].
  unfold http_StatusInternalServerError. rewrite accepts_500, error_body_generic.
  reflexivity.
Qed.

(** C4, as the code has it. When the handlers below [RecoverMiddleware]
    panic, the guard sets the header Connection to close, logs the panic
    and calls the active error handler once with the error "recovering
    from panic"; with the default error handler the call of the
    middleware returns, the panic does not go further, and status 500 and
    the generic body are written. The response has status 500 when the
    handlers had written no status before the panic, and keeps the status
    they had written otherwise; the generic body goes after what they had
    written. When the handlers below return, the guard does nothing. *)
Theorem RecoverMiddleware_recovers (DefaultErrorHandler : ErrorHandler)
    (next : Handler) (ps : list loc) (r : Request) (s : World) :
  match next (observed ps) r s with
  | (Normal _, s1) =>
    RecoverMiddleware DefaultErrorHandler next (observed ps) r s = (Normal tt, s1)
  | (Panicked v, s1) =>
    let s2 :=
      set_slog (fun l => (l ++ [panic_record v])%list)
        (set_calls (fun l => (l ++ [CallHeaderSet "Connection" "close"])%list) s1) in
    RecoverMiddleware DefaultErrorHandler next (observed ps) r s
    = DefaultErrorHandler (observed ps) r (fmt_Errorf "recovering from panic") s2
    /\ exists s',
         RecoverMiddleware defaultErrorHandler next (observed ps) r s = (Normal tt, s')
         /\ calls s'
            = (calls s1 ++ [CallHeaderSet "Connection" "close";
                            CallHeaderSet "Content-Type" "application/json";
                            CallWriteHeader 500; CallWrite generic_body])%list
         /\ slog s'
            = (slog s1 ++ [panic_record v;
                           error_record (fmt_Errorf "recovering from panic") 500])%list
         /\ HeaderMap (recorder (calls s')) !! "Connection"
            = Some [header_value "close"]
         /\ Code (recorder (calls s'))
            = (if wroteHeader (recorder (calls s1)) then Code (recorder (calls s1))
               else 500)
         /\ Body (recorder (calls s')) = Body (recorder (calls s1)) +:+ generic_body
  end.
Proof.
  pose proof (RecoverMiddleware_default_run next ps r s) as Hd.
  unfold RecoverMiddleware, defer_recover in *.
  destruct (next (observed ps) r s) as [[[]|v] s1]; [reflexivity|].
  cbn zeta. split.
  - unfold bind at 1. rewrite Header_run. reflexivity.
  - eexists. split; [exact Hd|].
    cbn [calls slog set_calls set_heap set_slog].
    rewrite <- !app_assoc. cbn [app].
    split; [reflexivity|]. split; [reflexivity|].
    change (calls s1 ++ CallHeaderSet "Connection" "close" :: json_response 500 generic_body)%list
      with (calls s1 ++ [CallHeaderSet "Connection" "close"] ++ json_response 500 generic_body)%list.
    rewrite app_assoc.
    destruct (recorder_json_response (calls s1 ++ [CallHeaderSet "Connection" "close"])
                500 generic_body (accepts_500 _)) as (_ & HB & HC & _).
    rewrite (recorder_json_HeaderMap _ _ _ (accepts_500 _)).
    rewrite HB, HC, wroteHeader_HeaderSet, !recorder_snoc.
    cbn [receive HeaderMap Code Body]. unfold HeaderMap_Set.
    split; [|split; reflexivity].
    rewrite lookup_insert_ne by discriminate. apply lookup_insert_eq.
Qed.

(** C4, as the specification has it, fails. A handler that writes status
    201 and then panics: the guard recovers, and the response has status
    201, not 500. *)
Lemma RecoverMiddleware_keeps_status :
  let created : Handler :=
    fun w _ => ResponseWriter_WriteHeader w 201 ;; panic (panic_any (any_string "test panic")) in
  let out := RecoverMiddleware defaultErrorHandler created hostWriter request0 World0 in
  fst out = Normal tt
  /\ Code (recorder (calls (snd out))) = 201
  /\ Body (recorder (calls (snd out))) = generic_body.
Proof. vm_compute. repeat split. Qed.

Lemma LoggerMiddleware_any (next : Handler) (w : ResponseWriter) (r : Request)
    (s : World) :
  let p := fresh (dom (heap s)) in
  let out := next (responseWriter w p) r (set_heap <[p := 0]> (tick s)) in
  LoggerMiddleware next w r s
  = (match fst out with
     | Normal _ => Normal tt
     | Panicked v => Panicked v
     end,
     set_slog
       (fun l => (l ++ [access_record r (default 0 (heap (snd out) !! p))
                          (clock (snd out) (ticks (snd out)) - clock s (ticks s))])%list)
       (tick (snd out))).
Proof.
  intros p out. unfold LoggerMiddleware. unfold bind at 1, time_Now.
  unfold bind at 1, new_int. cbn [heap tick]. fold p. unfold defer. fold out.
  destruct out as [[[]|v] s1]; reflexivity.
Qed.

Lemma LoggerMiddleware_run (next : Handler) (w : ResponseWriter) (r : Request)
    (s s1 : World) :
  let p := fresh (dom (heap s)) in
  next (responseWriter w p) r (set_heap <[p := 0]> (tick s)) = (Normal tt, s1) ->
  LoggerMiddleware next w r s
  = (Normal tt,
     set_slog
       (fun l => (l ++ [access_record r (default 0 (heap s1 !! p))
                          (clock s1 (ticks s1) - clock s (ticks s))])%list)
       (tick s1)).
Proof.
  intros p Hnext. rewrite LoggerMiddleware_any. fold p. rewrite Hnext. reflexivity.
Qed.

(** C5, as the code has it. With [LoggerMiddleware] registered before
    [RecoverMiddleware] and the default error handler, the request returns
    without a panic and the logger has appended one record when the
    handlers below are done. The status of the record is what the captured
    status holds then: 500 after a panic was recovered, which is the status
    the client gets when no header was written before the panic; for a
    handler that only calls the response writer, the status of its last
    [WriteHeader], and 0 when it has called none, unless the server's
    writer refuses a status, which is a panic that is recovered. *)
Theorem LoggerMiddleware_records (h : Handler) (ops : list Op) (ps : list loc)
    (r : Request) (s : World) :
  let p := fresh (dom (heap s)) in
  let rw := responseWriter (observed ps) p in
  let s0 := set_heap <[p := 0]> (tick s) in
  let s1 := snd (RecoverMiddleware defaultErrorHandler h rw r s0) in
  let st := default 0 (heap s1 !! p) in
  let s1' := snd (RecoverMiddleware defaultErrorHandler (fun w _ => run_ops w ops) rw r s0) in
  LoggerMiddleware (RecoverMiddleware defaultErrorHandler h) (observed ps) r s
  = (Normal tt,
     set_slog
       (fun l => (l ++ [access_record r st (clock s1 (ticks s1) - clock s (ticks s))])%list)
       (tick s1))
  /\ match h rw r s0 with
     | (Panicked v, sh) =>
       st = 500
       /\ calls s1 = (calls sh ++ [CallHeaderSet "Connection" "close";
                                   CallHeaderSet "Content-Type" "application/json";
                                   CallWriteHeader 500; CallWrite generic_body])%list
       /\ Code (recorder (calls s1))
          = (if wroteHeader (recorder (calls sh)) then Code (recorder (calls sh)) else 500)
     | (Normal _, sh) => s1 = sh
     end
  /\ match refusal (calls s) ops with
     | None =>
       default 0 (heap s1' !! p) = last_status ops 0
       /\ calls s1' = (calls s ++ (call_of <$> ops))%list
     | Some _ => default 0 (heap s1' !! p) = 500
     end.
Proof.
  intros p rw s0 s1 st s1'.
  change rw with (observed (p :: ps)) in *. split; [|split].
  - apply LoggerMiddleware_run. fold p s0.
    change (responseWriter (observed ps) p) with (observed (p :: ps)). subst s1.
    rewrite RecoverMiddleware_default_run.
    destruct (h (observed (p :: ps)) r s0) as [[[]|v] sh]; reflexivity.
  - subst st s1. rewrite RecoverMiddleware_default_run.
    destruct (h (observed (p :: ps)) r s0) as [[[]|v] sh]; cbn [snd]; [reflexivity|].
    split; [|split].
    + cbn [heap set_calls set_heap set_slog]. rewrite store_all_lookup.
      rewrite decide_True by left. reflexivity.
    + cbn [calls set_calls set_heap set_slog]. rewrite <- app_assoc. reflexivity.
    + cbn [calls set_calls set_heap set_slog].
      destruct (recorder_json_response (calls sh ++ [CallHeaderSet "Connection" "close"])
                  500 generic_body (accepts_500 _)) as (_ & _ & HC & _).
      rewrite HC, wroteHeader_HeaderSet, recorder_snoc. reflexivity.
  - subst s1'. rewrite RecoverMiddleware_default_run.
    destruct (run_ops_run (p :: ps) ops s0) as (s2 & Hrun & Hc & _ & _ & _ & _ & Hh & _).
    rewrite Hrun. unfold ops_outcome. change (calls s0) with (calls s) in *.
    destruct (refusal (calls s) ops) as [v|] eqn:Hr; cbn [snd].
    + cbn [heap set_calls set_heap set_slog]. rewrite store_all_lookup.
      rewrite decide_True by left. reflexivity.
    + rewrite (made_all _ _ Hr) in *. split; [|exact Hc].
      rewrite (Hh p) by left. subst s0. cbn [heap set_heap tick].
      rewrite lookup_insert_eq. reflexivity.
Qed.

(** C5, as the specification has it, fails. A handler that writes a body
    and calls no [WriteHeader] gives the client status 200, and the record
    of the logger has status 0; a handler that writes status 201 and then
    panics gives the client status 201, and the record has status 500. *)
Lemma LoggerMiddleware_status_differs :
  let chain h :=
    snd (LoggerMiddleware (RecoverMiddleware defaultErrorHandler h)
           hostWriter request0 World0) in
  let writes : Handler := fun w _ => _ <- ResponseWriter_Write w "ok" ;; ret tt in
  let panics : Handler :=
    fun w _ => ResponseWriter_WriteHeader w 201 ;; panic (panic_any (any_string "test panic")) in
  (slog (chain writes) = [access_record request0 0 0]
   /\ Code (recorder (calls (chain writes))) = 200
   /\ wroteHeader (recorder (calls (chain writes))) = true)
  /\ (last (slog (chain panics)) = Some (access_record request0 500 0)
      /\ Code (recorder (calls (chain panics))) = 201).
Proof. vm_compute. repeat split. Qed.

(** ** The router *)

Lemma wrap_take (mw : list Middleware) (n : nat) (h : Handler) :
  (n <= length mw)%nat -> wrap mw n h = nest (take n mw) h.
Proof.
  revert h. induction n as [|n IH]; intros h Hn; [reflexivity|].
  cbn [wrap]. destruct (mw !! n) as [m|] eqn:Hm.
  - rewrite IH by lia. rewrite (take_S_r mw n m Hm).
    unfold nest. rewrite foldr_app. reflexivity.
  - apply lookup_ge_None in Hm. unfold Middleware in *. lia.
Qed.

Lemma wrap_nest (mw : list Middleware) (h : Handler) :
  wrap mw (length mw) h = nest mw h.
Proof. rewrite wrap_take by lia. rewrite firstn_all. reflexivity. Qed.

Lemma Use_foldl (uses : list (list Middleware)) (r : Router) :
  mw (foldl Use r uses) = (mw r ++ concat uses)%list
  /\ mux (foldl Use r uses) = mux r.
Proof.
  revert r. induction uses as [|u uses IH]; intros r; cbn [foldl concat].
  - rewrite app_nil_r. split; reflexivity.
  - destruct (IH (Use r u)) as [Hmw Hmux]. rewrite Hmw, Hmux. cbn [Use mw mux].
    rewrite <- app_assoc. split; reflexivity.
Qed.

Lemma route_run (DefaultErrorHandler : ErrorHandler)
    (ServeMux_registerErr : ServeMux -> string -> option error) (r : Router)
    (method pattern : string) (rt : Route) (middleware : list Middleware) :
  route DefaultErrorHandler ServeMux_registerErr r method pattern rt middleware
  = match ServeMux_registerErr (mux r) (method +:+ " " +:+ pattern) with
    | Some e => Panicked (panic_error e)
    | None =>
      Normal {| mux := (mux r ++ [entry DefaultErrorHandler method pattern rt middleware])%list;
                mw := mw r |}
    end.
Proof.
  unfold route, ServeMux_Handle, entry. rewrite wrap_nest.
  destruct (ServeMux_registerErr (mux r) (method +:+ " " +:+ pattern)); reflexivity.
Qed.

Lemma nest_tags_run (names : list string) (h : Handler) (mid : list LogRecord)
    (w : ResponseWriter) (r : Request) :
  (forall s, exists s', h w r s = (Normal tt, s') /\ slog s' = (slog s ++ mid)%list) ->
  forall s, exists s',
    nest (tag <$> names) h w r s = (Normal tt, s')
    /\ slog s'
       = (slog s ++ (info <$> (String.append "in " <$> names)) ++ mid
          ++ (info <$> (String.append "out " <$> rev names)))%list.
Proof.
  intros Hh. induction names as [|name names IH]; intros s.
  - destruct (Hh s) as (s' & Hrun & Hlog). exists s'. split; [exact Hrun|].
    rewrite Hlog. cbn. rewrite app_nil_r. reflexivity.
  - cbn [fmap list_fmap nest foldr]. unfold tag at 1. unfold bind at 1, mark at 1.
    unfold slog_Info, slog_log at 1.
    match goal with |- context [set_slog ?f s] => set (t := set_slog f s) end.
    destruct (IH t) as (s' & Hrun & Hlog). unfold nest in Hrun.
    unfold bind. rewrite Hrun. unfold mark, slog_Info, slog_log.
    eexists. split; [reflexivity|]. cbn [slog set_slog]. rewrite Hlog.
    subst t. cbn [slog set_slog rev]. rewrite !fmap_app. cbn [fmap list_fmap].
    unfold info at 1 5.
    rewrite <- !app_assoc. reflexivity.
Qed.

(** C2. With the global middleware [g0], [g1], ... registered by calls of
    [Use], in this order, and a route that the multiplexer takes,
    registered with the middleware [p0], [p1], ... and the handler [H],
    the handler that [ServeHTTP] runs for a request that the multiplexer
    hands to the route is [g0(g1(...(p0(p1(...(H)...)))...))]: the global
    middleware outside, the first registered outermost, the middleware of
    the route inside. Each middleware is entered before the ones it wraps
    and left after them. *)
Theorem Router_ServeHTTP_nests (DefaultErrorHandler : ErrorHandler)
    (ServeMux_Handler : ServeMux -> Request -> Handler)
    (ServeMux_registerErr : ServeMux -> string -> option error)
    (uses : list (list Middleware)) (perRoute : list Middleware) (H : Route)
    (method pattern : string) (gs ps : list string) (w : ResponseWriter)
    (r : Request) (s : World) :
  let composed := nest perRoute (Route_ServeHTTP DefaultErrorHandler H) in
  ServeMux_registerErr http_NewServeMux (method +:+ " " +:+ pattern) = None ->
  (forall req, ServeMux_Handler [(method +:+ " " +:+ pattern, composed)] req = composed) ->
  exists rt,
    route DefaultErrorHandler ServeMux_registerErr (foldl Use New uses) method pattern
      H perRoute = Normal rt
    /\ mw rt = concat uses
    /\ mux rt = [(method +:+ " " +:+ pattern, composed)]
    /\ Router_ServeHTTP ServeMux_Handler rt
       = nest (concat uses) (nest perRoute (Route_ServeHTTP DefaultErrorHandler H))
    /\ (forall A B C h, nest [A; B] (nest [C] h) = A (B (C h)))
    /\ exists s',
         nest (tag <$> gs)
           (nest (tag <$> ps) (Route_ServeHTTP DefaultErrorHandler tagged_route)) w r s
         = (Normal tt, s')
         /\ slog s'
            = (slog s ++ (info <$> (String.append "in " <$> gs))
               ++ (info <$> (String.append "in " <$> ps)) ++ [info "handler"]
               ++ (info <$> (String.append "out " <$> rev ps))
               ++ (info <$> (String.append "out " <$> rev gs)))%list.
Proof.
  intros composed Htakes Hmux.
  destruct (Use_foldl uses New) as [Hmw Hm].
  rewrite route_run, Hm. cbn [New mux]. rewrite Htakes.
  eexists. split; [reflexivity|]. cbn [mw mux]. rewrite Hmw.
  unfold http_NewServeMux. cbn [New mw app].
  split; [reflexivity|]. split; [reflexivity|]. split; [|split].
  - unfold Router_ServeHTTP. cbn [mw mux]. rewrite wrap_nest.
    assert (Hserve : ServeMux_ServeHTTP ServeMux_Handler
                       [entry DefaultErrorHandler method pattern H perRoute]
                     = composed).
    { unfold ServeMux_ServeHTTP. apply functional_extensionality. intros w0.
      apply functional_extensionality. intros r0. unfold entry.
      fold composed. rewrite Hmux. reflexivity. }
    rewrite Hserve. reflexivity.
  - reflexivity.
  - assert (Hroute : forall s0, exists s',
              Route_ServeHTTP DefaultErrorHandler tagged_route w r s0 = (Normal tt, s')
              /\ slog s' = (slog s0 ++ [info "handler"])%list).
    { intros s0. eexists. split; reflexivity. }
    pose proof (nest_tags_run ps _ _ w r Hroute) as Hinner.
    destruct (nest_tags_run gs _ _ w r Hinner s) as (s' & Hrun & Hlog).
    exists s'. split; [exact Hrun|]. rewrite Hlog, <- !app_assoc. reflexivity.
Qed.

Lemma Router_ServeHTTP_nests_witness :
  same_registerErr http_NewServeMux ("GET" +:+ " " +:+ "/test") = None
  /\ (forall req,
        first_Handler
          [("GET" +:+ " " +:+ "/test",
            nest [tag "C"] (Route_ServeHTTP defaultErrorHandler tagged_route))] req
        = nest [tag "C"] (Route_ServeHTTP defaultErrorHandler tagged_route))
  /\ exists rt,
       route defaultErrorHandler same_registerErr (foldl Use New [[tag "A"]; [tag "B"]])
         "GET" "/test" tagged_route [tag "C"] = Normal rt
       /\ msg <$> slog (snd (Router_ServeHTTP first_Handler rt hostWriter request0 World0))
          = ["in A"; "in B"; "in C"; "handler"; "out C"; "out B"; "out A"].
Proof.
  assert (Htakes : same_registerErr http_NewServeMux ("GET" +:+ " " +:+ "/test") = None)
    by (vm_compute; reflexivity).
  assert (Hmux : forall req,
     first_Handler
       [("GET" +:+ " " +:+ "/test",
         nest [tag "C"] (Route_ServeHTTP defaultErrorHandler tagged_route))] req
     = nest [tag "C"] (Route_ServeHTTP defaultErrorHandler tagged_route))
    by (intros req; reflexivity).
  split; [exact Htakes|]. split; [exact Hmux|].
  destruct (Router_ServeHTTP_nests defaultErrorHandler first_Handler same_registerErr
              [[tag "A"]; [tag "B"]] [tag "C"] tagged_route "GET" "/test"
              [] [] hostWriter request0 World0 Htakes Hmux) as (rt & Hrt & _ & _ & Heq & _).
  exists rt. split; [exact Hrt|]. rewrite Heq. reflexivity.
Defined.

(** ** The tests of the package and the scenarios of the specification *)

(** [TestDefaultErrorHandler]: status 500 and the generic body. *)
Example TestDefaultErrorHandler :
  let w := recorder (calls (snd (defaultErrorHandler hostWriter request0
                                   (errors_New "test error") World0))) in
  Code w = 500 /\ Body w = "{" +:+ (quoted "error" +:+ ":" +:+ quoted "internal server error") +:+ "}".
Proof. vm_compute. split; reflexivity. Qed.

(** [TestDefaultErrorHandlerStatusError]: status 404 and the message. *)
Example TestDefaultErrorHandlerStatusError :
  let e := error_of_StatusError (NewError 404 (errors_New "test error") [true]) in
  let w := recorder (calls (snd (defaultErrorHandler hostWriter request0 e World0))) in
  Code w = 404 /\ Body w = "{" +:+ (quoted "error" +:+ ":" +:+ quoted "test error") +:+ "}".
Proof. vm_compute. split; reflexivity. Qed.


(** [TestRouteError], with [LoggerMiddleware] and [RecoverMiddleware] in
    use as the README has them. *)
Example TestRouteError :
  match serve [[LoggerMiddleware]; [RecoverMiddleware defaultErrorHandler]] "/test"
          (fun _ _ => ret (Some (errors_New "test error"))) with
  | Some out =>
    Code (recorder (calls (snd out))) = 500
    /\ Body (recorder (calls (snd out))) = generic_body
    /\ last (slog (snd out)) = Some (access_record request0 500 0)
  | None => False
  end.
Proof. vm_compute. repeat split. Qed.

(** [TestRecoverMiddleware]: the panic of the route ends in a response. *)
Example TestRecoverMiddleware :
  match serve [[RecoverMiddleware defaultErrorHandler]] "/test"
          (fun _ _ => panic (panic_any (any_string "test panic"))) with
  | Some out =>
    fst out = Normal tt
    /\ Code (recorder (calls (snd out))) = 500
    /\ HeaderMap (recorder (calls (snd out))) !! "Connection" = Some [header_value "close"]
  | None => False
  end.
Proof. vm_compute. repeat split. Qed.

(** A route that answers with [RespondJSON(w, 200, map[string]string{"id": id})]
    for the id 42. *)
Example scenario_items :
  match serve [] "/items/{id}"
          (fun w _ => RespondJSON w 200 (any_map_string_string {["id" := "42"]})) with
  | Some out =>
    Code (recorder (calls (snd out))) = 200
    /\ Body (recorder (calls (snd out)))
       = "{" +:+ (quoted "id" +:+ ":" +:+ quoted "42") +:+ "}"
  | None => False
  end.
Proof. vm_compute. split; reflexivity. Qed.

(** A message with a quote and a line feed is escaped in the body. *)
Example escaped_message :
  error_body (String "a" (String dquote (String (ascii_of_nat 10) "b")))
  = "{" +:+ (quoted "error" +:+ ":"
             +:+ quoted (String "a" (String backslash (String dquote (String backslash "nb")))))
    +:+ "}".
Proof. vm_compute. reflexivity. Qed.

(** A body written without a status: the recorder takes status 200 and
    the content type that is found in the body. *)
Example implied_status :
  let w := recorder (calls (snd (ResponseWriter_Write hostWriter "ok" World0))) in
  Code w = 200 /\ HeaderMap w !! "Content-Type" = Some [http_DetectContentType "ok"].
Proof. vm_compute. split; reflexivity. Qed.

(** * Further properties *)

(** ** [Respond] and the response writers *)

(** X1. [Respond] logs nothing and sets no header, and every observer on
    the way captures the status, whatever it is. On a response that has a
    status, the status stays and the payload goes after what was written.
    On a response without one, a status from 100 to 999 becomes the
    status of the response and the payload its body; with another status
    [Respond] panics in [WriteHeader], before the payload is written, and
    the response is left without status and body. *)
Theorem Respond_writes (ps : list loc) (status : Z) (payload : string) (s : World) :
  exists o s', Respond (observed ps) status payload s = (o, s')
    /\ slog s' = slog s
    /\ (forall p, heap s' !! p = if decide (p ∈ ps) then Some status else heap s !! p)
    /\ HeaderMap (recorder (calls s')) = HeaderMap (recorder (calls s))
    /\ if wroteHeader (recorder (calls s))
       then o = Normal tt
            /\ Code (recorder (calls s')) = Code (recorder (calls s))
            /\ Body (recorder (calls s')) = Body (recorder (calls s)) +:+ payload
       else if (100 <=? status) && (status <=? 999)
       then o = Normal tt
            /\ Code (recorder (calls s')) = status
            /\ Body (recorder (calls s')) = Body (recorder (calls s)) +:+ payload
       else o = Panicked (invalid_code status)
            /\ wroteHeader (recorder (calls s')) = false
            /\ Body (recorder (calls s')) = Body (recorder (calls s)).
Proof.
  rewrite Respond_run. unfold accepts.
  change ((100 <=? status) && (status <=? 999)) with (valid_code status).
  destruct (wroteHeader (recorder (calls s))) eqn:Hw; cbn [orb];
    [|destruct (valid_code status) eqn:Hv].
  1, 2: eexists _, _; split; [reflexivity|];
    cbn [calls slog heap set_calls set_heap];
    split; [reflexivity|]; split; [intros p; apply store_all_lookup|];
    destruct (recorder_Respond (calls s) status payload) as (Hh & Hb & Hc & _);
    [unfold accepts; rewrite ?Hw, ?Hv; auto using orb_true_r|];
    rewrite Hw in Hc; repeat split; assumption.
  eexists _, _. split; [reflexivity|]. cbn [calls slog heap set_calls set_heap].
  split; [reflexivity|]. split; [intros p; apply store_all_lookup|].
  rewrite recorder_snoc. unfold receive. rewrite Hw, Hv. repeat split. exact Hw.
Qed.

(** X2. [WriteHeader] on a response writer, however many observers it is
    wrapped in, reaches the server's writer as one call, stores the status
    in the captured status of each observer, also when the server's writer
    refuses the status, and leaves every other [int] variable and the log
    as they are. *)
Theorem WriteHeader_through_observers (ps : list loc) (status : Z) (s : World) :
  exists s', ResponseWriter_WriteHeader (observed ps) status s
             = (WriteHeader_outcome (calls s) status, s')
    /\ calls s' = (calls s ++ [CallWriteHeader status])%list
    /\ slog s' = slog s
    /\ forall p, heap s' !! p = if decide (p ∈ ps) then Some status else heap s !! p.
Proof.
  eexists. split; [apply WriteHeader_run|].
  cbn [calls slog heap set_calls set_heap].
  split; [reflexivity|]. split; [reflexivity|].
  intros p. apply store_all_lookup.
Qed.

(** ** The middleware, in other orders *)

(** X3. [LoggerMiddleware] does not stop a panic: when the handlers below
    it panic, the middleware panics with the same value, after it has
    logged its one record; when they return, it returns. In both cases
    the record is the last of the log, the clock was read once more, and
    nothing else is changed in the world that the handlers below left. *)
Theorem LoggerMiddleware_passes_panic (next : Handler) (w : ResponseWriter)
    (r : Request) (s : World) :
  let p := fresh (dom (heap s)) in
  let out := next (responseWriter w p) r (set_heap <[p := 0]> (tick s)) in
  let out' := LoggerMiddleware next w r s in
  fst out' = match fst out with
             | Normal _ => Normal tt
             | Panicked v => Panicked v
             end
  /\ slog (snd out')
     = (slog (snd out)
        ++ [access_record r (default 0 (heap (snd out) !! p))
              (clock (snd out) (ticks (snd out)) - clock s (ticks s))])%list
  /\ calls (snd out') = calls (snd out)
  /\ heap (snd out') = heap (snd out)
  /\ clock (snd out') = clock (snd out)
  /\ ticks (snd out') = S (ticks (snd out))
  /\ maps (snd out') = maps (snd out).
Proof.
  intros p out out'. subst out'. rewrite LoggerMiddleware_any. fold p out.
  repeat split.
Qed.

Lemma script_run (ops : list Op) (v : option PanicValue) (ps : list loc)
    (r : Request) (s : World) :
  exists s', script ops v (observed ps) r s = (script_outcome (calls s) ops v, s')
    /\ calls s' = (calls s ++ (call_of <$> made (calls s) ops))%list
    /\ slog s' = slog s /\ clock s' = clock s /\ ticks s' = ticks s
    /\ forall p, p ∈ ps ->
         default 0 (heap s' !! p)
         = last_status (made (calls s) ops) (default 0 (heap s !! p)).
Proof.
  destruct (run_ops_run ps ops s) as (s' & Hrun & Hc & Hl & Hk & Hn & _ & Hh & _).
  exists s'. split; [|auto].
  unfold script, bind. rewrite Hrun. unfold ops_outcome, script_outcome.
  destruct (refusal (calls s) ops); [reflexivity|]. destruct v; reflexivity.
Qed.

Lemma LoggerMiddleware_script (ops : list Op) (v : option PanicValue)
    (ps : list loc) (r : Request) (s : World) :
  let out := script ops v (observed ps) r s in
  let out' := LoggerMiddleware (script ops v) (observed ps) r s in
  fst out' = fst out
  /\ fst out = script_outcome (calls s) ops v
  /\ calls (snd out') = calls (snd out)
  /\ calls (snd out') = (calls s ++ (call_of <$> made (calls s) ops))%list
  /\ slog (snd out')
     = (slog s ++ [access_record r (last_status (made (calls s) ops) 0)
                     (clock s (S (ticks s)) - clock s (ticks s))])%list.
Proof.
  intros out out'. subst out out'. rewrite LoggerMiddleware_any.
  set (p := fresh (dom (heap s))).
  change (responseWriter (observed ps) p) with (observed (p :: ps)).
  destruct (script_run ops v (p :: ps) r (set_heap <[p := 0]> (tick s)))
    as (s1 & Hrun & Hc & Hl & Hk & Hn & Hh).
  destruct (script_run ops v ps r s) as (s2 & Hrun2 & Hc2 & _).
  change (calls (set_heap <[p := 0]> (tick s))) with (calls s) in *.
  rewrite Hrun, Hrun2. cbn [fst snd calls slog set_slog tick] in *.
  split; [destruct (script_outcome (calls s) ops v) as [[]|]; reflexivity|].
  split; [reflexivity|]. split; [rewrite Hc, Hc2; reflexivity|].
  split; [exact Hc|].
  rewrite Hl, Hk, Hn, (Hh p) by left. cbn [heap slog clock ticks set_heap tick].
  rewrite lookup_insert_eq. reflexivity.
Qed.

(** X4. For a handler that only calls its response writer and then
    returns or panics, [LoggerMiddleware] is transparent: the server's
    writer receives the calls of the handler, all of them up to one that
    it refuses and no other, the outcome is the one of the handler, and
    the log has one record more, with the status of the last
    [WriteHeader] that the handler called, or 0, and with the time
    between two readings of the clock. *)
Theorem LoggerMiddleware_transparent (ops : list Op) (v : option PanicValue)
    (ps : list loc) (r : Request) (s : World) :
  let out := script ops v (observed ps) r s in
  let out' := LoggerMiddleware (script ops v) (observed ps) r s in
  fst out' = fst out
  /\ fst out = script_outcome (calls s) ops v
  /\ calls (snd out') = calls (snd out)
  /\ calls (snd out') = (calls s ++ (call_of <$> made (calls s) ops))%list
  /\ slog (snd out')
     = (slog s ++ [access_record r (last_status (made (calls s) ops) 0)
                     (clock s (S (ticks s)) - clock s (ticks s))])%list.
Proof. exact (LoggerMiddleware_script ops v ps r s). Qed.

(** X5. With [RecoverMiddleware] registered before [LoggerMiddleware] the
    logger has logged before the panic is recovered: for a handler that
    calls its response writer and panics, the record of the logger has the
    status of the last [WriteHeader] that the handler called, 0 without
    one, and the records of the recovery and the response of status 500
    come after it. *)
Theorem RecoverMiddleware_outside_Logger (ops : list Op) (v : PanicValue)
    (ps : list loc) (r : Request) (s : World) :
  let out :=
    RecoverMiddleware defaultErrorHandler (LoggerMiddleware (script ops (Some v)))
      (observed ps) r s in
  let v' := match refusal (calls s) ops with Some v' => v' | None => v end in
  fst out = Normal tt
  /\ slog (snd out)
     = (slog s ++ [access_record r (last_status (made (calls s) ops) 0)
                     (clock s (S (ticks s)) - clock s (ticks s));
                   panic_record v';
                   error_record (fmt_Errorf "recovering from panic") 500])%list
  /\ calls (snd out)
     = (calls s ++ (call_of <$> made (calls s) ops)
        ++ [CallHeaderSet "Connection" "close";
            CallHeaderSet "Content-Type" "application/json";
            CallWriteHeader 500; CallWrite generic_body])%list.
Proof.
  intros out v'. subst out. rewrite RecoverMiddleware_default_run.
  destruct (LoggerMiddleware_script ops (Some v) ps r s) as (Hf & Ho & _ & Hc & Hl).
  destruct (LoggerMiddleware (script ops (Some v)) (observed ps) r s) as [o s1].
  cbn [fst snd] in *. rewrite Ho in Hf. unfold script_outcome in Hf.
  assert (Hp : o = Panicked v')
    by (rewrite Hf; subst v'; destruct (refusal (calls s) ops); reflexivity).
  rewrite Hp. cbn [fst snd calls slog set_calls set_heap set_slog].
  rewrite Hc, Hl, <- !app_assoc. repeat split.
Qed.

(** X6. [RecoverMiddleware] with the default error handler never panics,
    so a second [RecoverMiddleware] around it, with whatever error handler,
    has nothing to recover: a panic is answered once. *)
Theorem RecoverMiddleware_nested (DefaultErrorHandler : ErrorHandler) (h : Handler)
    (ps : list loc) (r : Request) (s : World) :
  RecoverMiddleware DefaultErrorHandler (RecoverMiddleware defaultErrorHandler h)
    (observed ps) r s
  = RecoverMiddleware defaultErrorHandler h (observed ps) r s
  /\ exists s', RecoverMiddleware defaultErrorHandler h (observed ps) r s = (Normal tt, s').
Proof.
  assert (Hn : exists s',
             RecoverMiddleware defaultErrorHandler h (observed ps) r s = (Normal tt, s')).
  { rewrite RecoverMiddleware_default_run.
    destruct (h (observed ps) r s) as [[[]|v] s1]; eexists; reflexivity. }
  split; [|exact Hn]. destruct Hn as [s' Hs'].
  unfold RecoverMiddleware at 1, defer_recover. rewrite Hs'. reflexivity.
Qed.

(** ** Errors of routes *)

(** X7. Of a classified error that wraps a classified error, the default
    error handler uses the status and the flag of the outer one and the
    message of the inner one: the response is the one for
    [NewError code cause flags], whatever status and flags the inner error
    was made with. A message that the inner error keeps from the client is
    sent when the outer one is a response error. *)
Theorem defaultErrorHandler_wrapped (ps : list loc) (r : Request)
    (code inner : Z) (cause : error) (flags flags' : list bool) (s : World) :
  let wrapped :=
    error_of_StatusError
      (NewError code (error_of_StatusError (NewError inner cause flags')) flags) in
  let plain := error_of_StatusError (NewError code cause flags) in
  let body :=
    match flags with
    | true :: _ => error_body (error_Error cause)
    | _ => generic_body
    end in
  fst (defaultErrorHandler (observed ps) r wrapped s)
    = fst (defaultErrorHandler (observed ps) r plain s)
  /\ calls (snd (defaultErrorHandler (observed ps) r wrapped s))
     = calls (snd (defaultErrorHandler (observed ps) r plain s))
  /\ heap (snd (defaultErrorHandler (observed ps) r wrapped s))
     = heap (snd (defaultErrorHandler (observed ps) r plain s))
  /\ calls (snd (defaultErrorHandler (observed ps) r wrapped s))
     = (calls s
        ++ if accepts (calls s) code then json_response code body
           else [CallHeaderSet "Content-Type" "application/json";
                 CallWriteHeader code])%list.
Proof.
  intros wrapped plain body. subst wrapped plain body.
  rewrite !defaultErrorHandler_run.
  unfold resolve, assert_Error, StatusError_Status, StatusError_IsResponseError,
    StatusError_Error, NewError.
  cbn [err status isResponseError error_Error fst snd].
  destruct flags as [|[|] flags]; cbn [fst snd];
    destruct (accepts (calls s) code); repeat split.
Qed.

(** X8. An error that a route returns after it has written to the
    response does not change the status of the response: the status that
    the recorder has stays, and the body of the error goes after what the
    route wrote. *)
Theorem Route_ServeHTTP_error_after_write (rt : Route) (ps : list loc)
    (req : Request) (e : error) (s s1 : World) :
  rt (observed ps) req s = (Normal (Some e), s1) ->
  wroteHeader (recorder (calls s1)) = true ->
  exists s' body,
    Route_ServeHTTP defaultErrorHandler rt (observed ps) req s = (Normal tt, s')
    /\ json_Marshal (any_map_string_string {["error" := (resolve e).2]}) = inl body
    /\ calls s' = (calls s1 ++ json_response (resolve e).1 body)%list
    /\ Code (recorder (calls s')) = Code (recorder (calls s1))
    /\ Body (recorder (calls s')) = Body (recorder (calls s1)) +:+ body
    /\ slog s' = (slog s1 ++ [error_record e (resolve e).1])%list.
Proof.
  intros Hrt Hw. unfold Route_ServeHTTP, bind. rewrite Hrt.
  assert (Ha : accepts (calls s1) (resolve e).1 = true)
    by (unfold accepts; rewrite Hw; reflexivity).
  rewrite defaultErrorHandler_run. cbn zeta. rewrite Ha.
  eexists. exists (error_body (resolve e).2). split; [reflexivity|].
  split; [apply Marshal_error|]. cbn [calls set_calls set_heap set_slog slog].
  destruct (recorder_json_response (calls s1) (resolve e).1
              (error_body (resolve e).2) Ha) as (_ & Hb & Hc & _).
  rewrite Hw in Hc. repeat split; assumption.
Qed.

Lemma Route_ServeHTTP_error_after_write_witness :
  exists s' body,
    Route_ServeHTTP defaultErrorHandler
      (fun w _ => Respond w 201 "created" ;; ret (Some (errors_New "late")))
      hostWriter request0 World0 = (Normal tt, s')
    /\ json_Marshal (any_map_string_string
                       {["error" := (resolve (errors_New "late")).2]}) = inl body
    /\ calls s'
       = ([CallWriteHeader 201; CallWrite "created"]
          ++ json_response (resolve (errors_New "late")).1 body)%list
    /\ Code (recorder (calls s')) = 201
    /\ Body (recorder (calls s')) = "created" +:+ body
    /\ slog s' = ([] ++ [error_record (errors_New "late")
                           (resolve (errors_New "late")).1])%list.
Proof.
  exact (Route_ServeHTTP_error_after_write
           (fun w _ => Respond w 201 "created" ;; ret (Some (errors_New "late")))
           [] request0 (errors_New "late") World0 _
           eq_refl eq_refl).
Defined.

Lemma go_Marshal_error_plain (v : any) (failure : error) :
  go_Marshal v = inr failure -> assert_Error failure = None.
Proof.
  destruct v as [|[]|n|s|m| |[]| | |typ e]; cbn [go_Marshal]; intros H;
    inversion H; subst; reflexivity.
Qed.

(** X9. A route that returns what [RespondJSON] returns, for a payload
    that the encoder fails on: the failure of the encoder reaches the
    default error handler, which logs it and writes status 500 and the
    generic body, also when the failure is that of a [MarshalJSON] method
    and is a classified error with a status and a message to show. *)
Theorem Route_RespondJSON_fails (ps : list loc) (req : Request) (status : Z)
    (payload : any) (failure : error) (s : World) :
  json_Marshal payload = inr failure ->
  exists s',
    Route_ServeHTTP defaultErrorHandler (fun w _ => RespondJSON w status payload)
      (observed ps) req s = (Normal tt, s')
    /\ calls s' = (calls s ++ json_response 500 generic_body)%list
    /\ slog s' = (slog s ++ [error_record failure 500])%list
    /\ Code (recorder (calls s'))
       = (if wroteHeader (recorder (calls s)) then Code (recorder (calls s)) else 500)
    /\ Body (recorder (calls s')) = Body (recorder (calls s)) +:+ generic_body.
Proof.
  intros Hm. unfold Route_ServeHTTP, bind.
  rewrite (RespondJSON_error_run _ _ _ failure _ Hm).
  rewrite defaultErrorHandler_run. cbn zeta.
  unfold resolve. rewrite (go_Marshal_error_plain payload failure Hm).
  cbn [fst snd]. unfold http_StatusInternalServerError.
  rewrite accepts_500, error_body_generic.
  eexists. split; [reflexivity|]. cbn [calls slog set_calls set_heap set_slog].
  destruct (recorder_json_response (calls s) 500 generic_body (accepts_500 _))
    as (_ & Hb & Hc & _).
  repeat split; assumption.
Qed.

Lemma Route_RespondJSON_fails_witness :
  let shown := error_of_StatusError (NewError 404 (errors_New "no such item") [true]) in
  json_Marshal (any_Marshaler "Item" shown) = inr (MarshalerError "Item" shown "MarshalJSON")
  /\ exists s',
       Route_ServeHTTP defaultErrorHandler
         (fun w _ => RespondJSON w 200 (any_Marshaler "Item" shown))
         hostWriter request0 World0 = (Normal tt, s')
       /\ Code (recorder (calls s')) = 500
       /\ Body (recorder (calls s')) = generic_body.
Proof.
  intros shown. split; [reflexivity|].
  destruct (Route_RespondJSON_fails [] request0 200 (any_Marshaler "Item" shown)
              (MarshalerError "Item" shown "MarshalJSON") World0 eq_refl)
    as (s' & Hrun & _ & _ & Hc & Hb).
  exists s'. split; [exact Hrun|]. split; [exact Hc | exact Hb].
Defined.

(** ** Registrations *)

Lemma registers_run (DefaultErrorHandler : ErrorHandler)
    (ServeMux_registerErr : ServeMux -> string -> option error)
    (regs : list Registration) (r0 : Router) :
  if takes ServeMux_registerErr (mux r0) (concat (entries_of DefaultErrorHandler <$> regs))
  then registers DefaultErrorHandler ServeMux_registerErr r0 regs
       = Normal {| mux := (mux r0 ++ concat (entries_of DefaultErrorHandler <$> regs))%list;
                   mw := (mw r0 ++ concat (globals_of <$> regs))%list |}
  else exists v, registers DefaultErrorHandler ServeMux_registerErr r0 regs = Panicked v.
Proof.
  revert r0. induction regs as [|g regs IH]; intros r0.
  - cbn. rewrite !app_nil_r. destruct r0; reflexivity.
  - cbn [registers fmap list_fmap concat].
    destruct g as [mws|method pattern rt mws|pattern rt mws|pattern rt mws|pattern rt mws
                   |pattern rt mws|pattern rt mws];
      cbn [register entries_of globals_of app];
      [ specialize (IH (Use r0 mws)); cbn [Use mux mw] in IH;
        rewrite <- app_assoc in IH; exact IH | .. ];
      unfold Handle, Delete, Get, Patch, Post, Put; rewrite route_run;
      cbn [takes entry fst];
      (match goal with
       | |- context [ServeMux_registerErr (mux r0) ?pat] =>
         destruct (ServeMux_registerErr (mux r0) pat) as [e|]
       end;
       [ eexists; reflexivity
       | match goal with
         | |- context [registers _ _ ?r1 regs] =>
           specialize (IH r1); cbn [mux mw] in IH
         end;
         unfold entry in *;
         match type of IH with
         | if ?b then _ else _ =>
           destruct b; [rewrite IH, <- app_assoc; reflexivity | exact IH]
         end ]).
Qed.

(** X10. A sequence of calls of [Use], [Handle], [Delete], [Get],
    [Patch], [Post] and [Put] either meets a pattern that the multiplexer
    refuses, and panics there, or leaves the router with the middleware
    of the [Use] calls in the order given and one entry of the
    multiplexer for each route, in the order given, under the pattern
    [METHOD pattern] and with the middleware of the route around its
    adapter, the first outermost. The router then serves with all its
    middleware around the multiplexer, the first outermost: middleware
    given to [Use] after a route was registered is around that route as
    well. *)
Theorem Router_registrations (DefaultErrorHandler : ErrorHandler)
    (ServeMux_Handler : ServeMux -> Request -> Handler)
    (ServeMux_registerErr : ServeMux -> string -> option error)
    (regs : list Registration) (r0 : Router) :
  let globals := (mw r0 ++ concat (globals_of <$> regs))%list in
  let entries := (mux r0 ++ concat (entries_of DefaultErrorHandler <$> regs))%list in
  if takes ServeMux_registerErr (mux r0) (concat (entries_of DefaultErrorHandler <$> regs))
  then exists r,
         registers DefaultErrorHandler ServeMux_registerErr r0 regs = Normal r
         /\ mw r = globals
         /\ mux r = entries
         /\ Router_ServeHTTP ServeMux_Handler r
            = nest globals (ServeMux_ServeHTTP ServeMux_Handler entries)
  else exists v,
         registers DefaultErrorHandler ServeMux_registerErr r0 regs = Panicked v.
Proof.
  intros globals entries.
  pose proof (registers_run DefaultErrorHandler ServeMux_registerErr regs r0) as H.
  destruct (takes ServeMux_registerErr (mux r0)
              (concat (entries_of DefaultErrorHandler <$> regs))); [|exact H].
  eexists. split; [exact H|]. cbn [mw mux].
  split; [reflexivity|]. split; [reflexivity|].
  unfold Router_ServeHTTP. cbn [mw mux]. rewrite wrap_nest. reflexivity.
Qed.

(** With a multiplexer that refuses a pattern it has, the second route
    for GET /test panics, and a [Use] after the one route is around it. *)
Example registrations :
  let hello : Route := fun w _ => Respond w 200 "hello" ;; ret None in
  (exists v,
     registers defaultErrorHandler same_registerErr New
       [reg_Get "/test" hello []; reg_Get "/test" hello []] = Panicked v)
  /\ match registers defaultErrorHandler same_registerErr New
             [reg_Get "/test" hello []; reg_Use [tag "late"]] with
     | Normal r =>
       msg <$> slog (snd (Router_ServeHTTP first_Handler r hostWriter request0 World0))
       = ["in late"; "out late"]
     | Panicked _ => False
     end.
Proof. split; [eexists; reflexivity | vm_compute; reflexivity]. Qed.
